(** * Fortuna personal-finance frontend: aggregation, retry, validation

    A shallow embedding of the client-side logic of the personal-finance
    savings predictor (React components [Dashboard], [SavingsPrediction],
    [UserProfile] and [TransactionForm]) together with the properties the
    natural-language specification states about it.

    Conventions of the embedding.
    - A JavaScript number is an IEEE 754 binary64 value: the amounts of
      transactions are primitive floats, and [+] and [/] are the rounding
      operations of the format.
    - A JavaScript object used as a dictionary is a [gmap] of its own
      properties; arrays are lists.
    - The current time is a parameter ([today], the time value of
      [new Date()]), and so is the time zone of the host ([tz], its offset
      from UTC as a function of the time).  [setDate] and [getDate] work on
      local time, [toISOString] on UTC.
    - Text typed by the user is a sequence of UTF-16 code units.
    - React state setters are modelled by explicit state passing: a handler
      takes the current component state and returns the next one.
    - Remote calls ([axios.get], [axios.post]) are functions supplied by the
      environment; their outcome is a sum type (response or error). *)

From Stdlib Require Import ZArith QArith Qcanon String Ascii List Lia Floats.
From Stdlib Require Import Permutation DecimalString.
From stdpp Require Import base numbers option list strings gmap fin_maps.

Import ListNotations.
Local Open Scope Z_scope.

(** * Categories

    [TransactionForm.js] declares the predefined expense categories as the
    array [categories]; the category of a transaction is one of them, so
    that a key of the category mapping is never the name of a property that
    objects inherit. *)

Inductive Category :=
  | Groceries
  | Transport
  | Eating_Out
  | Entertainment
  | Utilities
  | Healthcare
  | Education
  | Miscellaneous.

Definition categories : list Category :=
  [Groceries; Transport; Eating_Out; Entertainment;
   Utilities; Healthcare; Education; Miscellaneous].

#[global] Instance Category_eq_dec : EqDecision Category.
Proof. solve_decision. Defined.

Definition Category_index (c : Category) : nat :=
  match c with
  | Groceries => 0 | Transport => 1 | Eating_Out => 2 | Entertainment => 3
  | Utilities => 4 | Healthcare => 5 | Education => 6 | Miscellaneous => 7
  end%nat.

#[global] Instance Category_countable : Countable Category.
Proof.
  refine (inj_countable' Category_index
            (fun n => default Miscellaneous (categories !! n)) _).
  by intros [].
Defined.

(** * JavaScript numbers

    Numbers are the doubles of IEEE 754, here the primitive floats of the
    prover: [x + y] and [x / y] round to the nearest double, [x =? y] is
    the comparison [===] of two numbers (it holds of [0] and [-0] and fails
    on [NaN]). *)

(** [!x] for a number: [0], [-0] and [NaN] are falsy. *)
Definition falsyNumber (x : float) : bool :=
  (x =? 0)%float || is_nan x.

(** The number of an integer, as the conversion of an integer to a
    double rounds it: exact up to 2^53, to the nearest double (ties to
    even) above, and [Infinity] from 2^1024 on. *)
Definition numberOfZ (z : Z) : float :=
  SF2Prim (binary_normalize prec emax z 0 false).

(** The number of a count, such as the [length] of an array. *)
Definition numberOfNat (n : nat) : float :=
  numberOfZ (Z.of_nat n).

(** A number that is neither [NaN] nor infinite. *)
Definition isFinite (x : float) : bool :=
  match Prim2SF x with
  | S754_zero _ | S754_finite _ _ _ => true
  | _ => false
  end.

(** The value of a finite double, counted in units of 2^-1074 (the least
    positive double): every finite double is a whole number of them. *)
Definition quanta (x : float) : Z :=
  match Prim2SF x with
  | S754_finite s m e => (if s then -1 else 1) * (Z.pos m * 2 ^ (e + 1074))
  | _ => 0
  end.

(** The addition [x + y] does not round: the result is finite and is the
    sum of the two values. *)
Definition exactAdd (x y : float) : bool :=
  isFinite (x + y) && (quanta (x + y) =? quanta x + quanta y).

(** [amounts.reduce((sum, a) => sum + a, 0)] *)
Definition sumList (amounts : list float) : float :=
  fold_left PrimFloat.add amounts 0%float.

(** Every addition of the sum of [amounts], started at [s], is exact. *)
Fixpoint sumExact (s : float) (amounts : list float) : bool :=
  match amounts with
  | [] => true
  | a :: rest => exactAdd s a && sumExact (s + a) rest
  end.

(** * Transactions and trend points *)

Module Tx.
(** A transaction as returned by [GET /api/transactions/{userId}]. *)
Record t := mk {
  category : Category;
  amount : float;
  description : string;
  date : string  (* YYYY-MM-DD *)
}.
End Tx.

Module Trend.
(** One entry [{ date, amount }] of the daily spending trend. *)
Record t := mk {
  date : string;
  amount : float
}.
End Trend.

(** * JavaScript dates

    A [Date] is its time value: milliseconds since the epoch, in UTC.
    [toISOString] renders the UTC calendar date of the instant.  [getDate]
    and [setDate] read and write the fields of the local time, which is the
    time value plus the offset of the host's time zone at that time. *)

Module JsDate.

Definition msPerDay : Z := 86400000.

Definition msPerHour : Z := 3600000.

(** Day number (days since 1970-01-01, UTC) of an instant. *)
Definition dayOf (ms : Z) : Z := ms / msPerDay.

(** Proleptic Gregorian calendar date (year, month, day) of a day number. *)
Definition civil_from_days (z : Z) : Z * Z * Z :=
  let z := z + 719468 in
  let era := z / 146097 in
  let doe := z - era * 146097 in
  let yoe := (doe - doe / 1460 + doe / 36524 - doe / 146096) / 365 in
  let y := yoe + era * 400 in
  let doy := doe - (365 * yoe + yoe / 4 - yoe / 100) in
  let mp := (5 * doy + 2) / 153 in
  let d := doy - (153 * mp + 2) / 5 + 1 in
  let m := if mp <? 10 then mp + 3 else mp - 9 in
  (if m <=? 2 then y + 1 else y, m, d).

Definition digit (n : Z) : ascii :=
  ascii_of_nat (48 + Z.to_nat (n mod 10)).

(** The [w] least significant decimal digits of [n], zero padded. *)
Fixpoint pad (w : nat) (n : Z) : string :=
  match w with
  | O => EmptyString
  | S w' => pad w' (n / 10) +:+ String (digit n) EmptyString
  end.

(** Years 0..9999 print with four digits, the others in the expanded
    form with a sign and six digits. *)
Definition yearString (y : Z) : string :=
  if (0 <=? y) && (y <=? 9999) then pad 4 y
  else (if y <? 0 then "-" else "+") +:+ pad 6 (Z.abs y).

(** The calendar-date part of the ISO 8601 rendering of a day. *)
Definition isoDatePart (day : Z) : string :=
  let '(y, m, d) := civil_from_days day in
  yearString y +:+ "-" +:+ pad 2 m +:+ "-" +:+ pad 2 d.

(** The first ten characters of the rendering of a day. *)
Definition dateOfDay (day : Z) : string :=
  substring 0 10 (isoDatePart day).

(** [date.toISOString().slice(0, 10)] *)
Definition toISODate (ms : Z) : string :=
  dateOfDay (dayOf ms).

(** The time zone of the host, as the language definition has it:
    [tz t true] is the offset of local time from UTC, in milliseconds, at
    the instant [t]; [tz t false] is the offset that applies to the local
    time [t]. *)
Definition TimeZone : Type := Z -> bool -> Z.

(** [LocalTime(t)]: the local time of an instant. *)
Definition LocalTime (tz : TimeZone) (t : Z) : Z := t + tz t true.

(** [UTC(t)]: the instant of a local time. *)
Definition UTC (tz : TimeZone) (t : Z) : Z := t - tz t false.

(** [date.setDate(date.getDate() - i)] on a date with time value [ms]:
    the day of the local time goes back by [i], the time within the day
    stays, and the result is taken back to UTC with the offset of that
    local time. *)
Definition minusDays (tz : TimeZone) (ms : Z) (i : nat) : Z :=
  UTC tz (LocalTime tz ms - Z.of_nat i * msPerDay).

(** A host on UTC. *)
Definition utc : TimeZone := fun _ _ => 0.

(** A host on Indian Standard Time, five hours and a half ahead of UTC
    all year. *)
Definition kolkata : TimeZone := fun _ _ => 19800000.

(** A host in New York with the two changes of the year 2026: daylight
    saving time (UTC-4) from 2026-03-08T07:00Z to 2026-11-01T06:00Z,
    standard time (UTC-5) before and after.  A local time that the clock
    skips or shows twice takes the offset from before the change. *)
Definition newYork : TimeZone := fun t isUTC =>
  let dstStart := 1772953200000 in
  let dstEnd := 1793512800000 in
  let standard := -5 * msPerHour in
  let daylight := -4 * msPerHour in
  if isUTC then
    if (dstStart <=? t) && (t <? dstEnd) then daylight else standard
  else
    if t <? dstStart + daylight then standard
    else if t <? dstEnd + daylight then daylight
    else standard.

(** The day number of a calendar date; the inverse of [civil_from_days]. *)
Definition days_from_civil (y m d : Z) : Z :=
  let y := if m <=? 2 then y - 1 else y in
  let era := y / 400 in
  let yoe := y - era * 400 in
  let mp := if m >? 2 then m - 3 else m + 9 in
  let doy := (153 * mp + 2) / 5 + d - 1 in
  let doe := yoe * 365 + yoe / 4 - yoe / 100 + doy in
  era * 146097 + doe - 719468.

(** The part of [civil_from_days] that works within an era of 400
    years: year of the era, month and day of the day [doe] of the era. *)
Definition civil_of_doe (doe : Z) : Z * Z * Z :=
  let yoe := (doe - doe / 1460 + doe / 36524 - doe / 146096) / 365 in
  let doy := doe - (365 * yoe + yoe / 4 - yoe / 100) in
  let mp := (5 * doy + 2) / 153 in
  let d := doy - (153 * mp + 2) / 5 + 1 in
  let m := if mp <? 10 then mp + 3 else mp - 9 in
  (yoe, m, d).

(** What the proofs need of one day of the era, as a test. *)
Definition doe_ok (doe : Z) : bool :=
  let '(yoe, m, d) := civil_of_doe doe in
  let mp := if m >? 2 then m - 3 else m + 9 in
  (0 <=? yoe) && (yoe <=? 399) && (1 <=? m) && (m <=? 12) &&
  (1 <=? d) && (d <=? 31) &&
  (yoe * 365 + yoe / 4 - yoe / 100 + ((153 * mp + 2) / 5 + d - 1) =? doe) &&
  (if 146037 <=? doe then (yoe =? 399) && (m <=? 2)
   else yoe + (if m <=? 2 then 1 else 0) <=? 399).

(** The test on [n] consecutive days of the era from [doe] on. *)
Fixpoint doe_ok_from (n : nat) (doe : Z) : bool :=
  match n with
  | O => true
  | S n' => doe_ok doe && doe_ok_from n' (doe + 1)
  end.

(** The first and the last day of the years 0 to 9999, those that
    [toISOString] prints with four digits. *)
Definition firstDay : Z := -719528.   (* 0000-01-01 *)
Definition lastDay : Z := 2932896.    (* 9999-12-31 *)

End JsDate.

(** * Aggregation ([processTransactionData])

    The grouping by category and the computation of the seven-day trend are
    textually the same in both versions of the dashboard component
    ([components/Dashboard.js] and the earlier copy kept in the repository);
    they are embedded once. *)

Section Aggregation.
Local Open Scope float_scope.

(** JavaScript truthiness of [acc[category]]: a missing property
    ([undefined]) is falsy, and so are the numbers [0], [-0] and [NaN]. *)
Definition falsy (v : option float) : bool :=
  match v with
  | None => true
  | Some x => falsyNumber x
  end.

(** The reducer of [byCategory]:
    [if (!acc[category]) acc[category] = 0; acc[category] += amount]. *)
Definition addToCategory (acc : gmap Category float) (transaction : Tx.t)
  : gmap Category float :=
  let category := Tx.category transaction in
  let amount := Tx.amount transaction in
  let acc1 := if falsy (acc !! category) then <[category := 0]> acc else acc in
  (* the property exists at this point; [default] never fires *)
  <[category := default 0 (acc1 !! category) + amount]> acc1.

Definition byCategory (transactionsData : list Tx.t) : gmap Category float :=
  fold_left addToCategory transactionsData ∅.

(** [new Array(7).fill(0).map((_, i) => ...).reverse()] *)
Definition last7Days (tz : JsDate.TimeZone) (today : Z) : list string :=
  rev (map (fun i => JsDate.toISODate (JsDate.minusDays tz today i)) (seq 0 7)).

(** [.filter(t => t.date === date).reduce((sum, t) => sum + t.amount, 0)] *)
Definition dayTotal (transactionsData : list Tx.t) (date : string) : float :=
  fold_left (fun sum t => sum + Tx.amount t)
    (List.filter (fun t => bool_decide (Tx.date t = date)) transactionsData) 0.

Definition recentTrends (tz : JsDate.TimeZone) (today : Z)
    (transactionsData : list Tx.t) : list Trend.t :=
  map (fun date => Trend.mk date (dayTotal transactionsData date))
    (last7Days tz today).

(** [transactions.reduce((sum, t) => sum + t.amount, 0)] *)
Definition totalSpending (transactions : list Tx.t) : float :=
  fold_left (fun sum t => sum + Tx.amount t) transactions 0.

(** The transactions of one category, in their order. *)
Definition inCategory (c : Category) (transactions : list Tx.t) : list Tx.t :=
  List.filter (fun t => bool_decide (Tx.category t = c)) transactions.

(** What the reducer makes of the running total of a category before it
    adds to it: a falsy total starts again at [0]. *)
Definition orZero (x : float) : float :=
  if falsyNumber x then 0 else x.

(** The running total of the transactions of one category, as the
    reducer adds them up one after the other from [s]. *)
Definition runningTotal (s : float) (transactions : list Tx.t) : float :=
  fold_left (fun s t => orZero s + Tx.amount t) transactions s.

Definition categoryTotal (transactions : list Tx.t) : float :=
  runningTotal 0 transactions.

(** Every addition [acc[category] += amount] that the reducer performs
    on [transactions], started with [acc], is exact. *)
Fixpoint groupingExact (acc : gmap Category float) (transactions : list Tx.t)
  : bool :=
  match transactions with
  | [] => true
  | t :: rest =>
      exactAdd (orZero (default 0 (acc !! Tx.category t))) (Tx.amount t)
      && groupingExact (addToCategory acc t) rest
  end.

(** [Object.values(m)], in the order of the keys of the model. *)
Definition values (m : gmap Category float) : list float :=
  map snd (map_to_list m).

(** [Object.values(m)] summed up. *)
Definition sumValues (m : gmap Category float) : float :=
  sumList (values m).

(** What the specification asks of the category mapping: the totals add
    up to the total of all amounts, and the keys are the categories of
    the transactions. *)
Definition partitions (transactions : list Tx.t) (m : gmap Category float)
  : Prop :=
  (sumValues m =? totalSpending transactions) = true /\
  forall c, is_Some (m !! c) <-> In c (map Tx.category transactions).

(** What the grouping gives for every collection: the keys are the
    categories of the transactions; the total of a category is the running
    total of its transactions in their order; and the totals, added up in
    any order, make the total of all amounts when none of the additions
    involved rounds. *)
Definition groupedBy (transactions : list Tx.t) (m : gmap Category float)
  : Prop :=
  (forall c, is_Some (m !! c) <-> In c (map Tx.category transactions)) /\
  (forall c, m !! c =
     match inCategory c transactions with
     | [] => None
     | _ :: _ => Some (categoryTotal (inCategory c transactions))
     end) /\
  (forall vs, Permutation vs (values m) ->
     groupingExact ∅ transactions = true ->
     sumExact 0 (map Tx.amount transactions) = true ->
     sumExact 0 vs = true ->
     (sumList vs =? totalSpending transactions) = true).

(** The local offset from UTC is the same now and at the same local time
    of each of the six days before. *)
Definition steadyOffset (tz : JsDate.TimeZone) (today : Z) : Prop :=
  forall i, (i < 7)%nat ->
    tz (JsDate.LocalTime tz today - Z.of_nat i * JsDate.msPerDay)%Z false =
    tz today true.

(** What the specification asks of the trend: seven entries, for the
    seven consecutive days that end with the day of [today] in that
    order, each with the total of the transactions of its day, which is
    0 for a day without transactions. *)
Definition sevenDayTrend (today : Z) (transactions : list Tx.t)
    (trend : list Trend.t) : Prop :=
  length trend = 7%nat /\
  map Trend.date trend =
    map (fun k => JsDate.dateOfDay (JsDate.dayOf today - 6 + Z.of_nat k)%Z)
        (seq 0 7) /\
  (forall p, In p trend ->
     Trend.amount p = dayTotal transactions (Trend.date p)) /\
  (forall p, In p trend ->
     (forall t, In t transactions -> Tx.date t <> Trend.date p) ->
     Trend.amount p = 0).

(** What the code computes as the trend in every time zone: seven
    entries for the dates of [last7Days], each with the total of the
    transactions of its date, which is 0 for a date without transactions;
    and the trend of the specification when the local offset is steady. *)
Definition computedTrend (tz : JsDate.TimeZone) (today : Z)
    (transactions : list Tx.t) (trend : list Trend.t) : Prop :=
  length trend = 7%nat /\
  map Trend.date trend = last7Days tz today /\
  (forall p, In p trend ->
     Trend.amount p = dayTotal transactions (Trend.date p)) /\
  (forall p, In p trend ->
     (forall t, In t transactions -> Tx.date t <> Trend.date p) ->
     Trend.amount p = 0) /\
  (steadyOffset tz today -> sevenDayTrend today transactions trend).

(** A date that is none of the seven dates of the window. *)
Definition outsideWindow (tz : JsDate.TimeZone) (today : Z) (date : string)
  : Prop :=
  ~ In date (last7Days tz today).

(** A date after the day of [today], when no date of the window is
    after that day, and with the window and the date in the years 0 to
    9999. *)
Definition futureDate (tz : JsDate.TimeZone) (today : Z) (date : string)
  : Prop :=
  exists day,
    date = JsDate.dateOfDay day /\
    (forall i, (i < 7)%nat ->
       (JsDate.firstDay <= JsDate.dayOf (JsDate.minusDays tz today i)
        <= JsDate.dayOf today)%Z) /\
    (JsDate.dayOf today < day <= JsDate.lastDay)%Z.

(** No entry of [trend] counts the transaction left out of
    [others]: every amount is the total of the others of its date. *)
Definition excludedFromTrend (others : list Tx.t) (trend : list Trend.t)
  : Prop :=
  forall p, In p trend -> Trend.amount p = dayTotal others (Trend.date p).

End Aggregation.

(** The component state [summaryData]. *)
Record SummaryData := mkSummary {
  summary_byCategory : gmap Category float;
  summary_recentTrends : list Trend.t
}.

(** [useState({ byCategory: {}, recentTrends: [] })] *)
Definition initialSummary : SummaryData := mkSummary ∅ [].

(** The body of [GET /api/spending-trends/{userId}]; the property
    [daily_spending] may be absent. *)
Record TrendsData := mkTrends {
  daily_spending : option (list Trend.t)
}.

(** The earlier version of the dashboard: no guard, the trend is always
    computed from the transactions. *)
Module DashboardV0.

Definition processTransactionData (tz : JsDate.TimeZone) (today : Z)
    (transactionsData : list Tx.t) (summaryData : SummaryData) : SummaryData :=
  mkSummary (byCategory transactionsData)
            (recentTrends tz today transactionsData).

End DashboardV0.

(** [components/Dashboard.js]. *)
Module Dashboard.

(** Returns the next [summaryData]; an early [return] leaves it as it is.
    [trendsData] is [None] for the default argument [null]. *)
Definition processTransactionData (tz : JsDate.TimeZone) (today : Z)
    (transactionsData : list Tx.t) (trendsData : option TrendsData)
    (summaryData : SummaryData) : SummaryData :=
  match transactionsData with
  | [] => summaryData
  | _ :: _ =>
      let recentTrends :=
        match trendsData with
        | Some {| daily_spending := Some api |} => api
        | _ => recentTrends tz today transactionsData
        end in
      mkSummary (byCategory transactionsData) recentTrends
  end.



End Dashboard.

(** * The summary cards of the dashboard *)

Section SummaryCards.
Local Open Scope float_scope.

(** [transactions.length || 1] *)
Definition lengthOr1 (transactions : list Tx.t) : nat :=
  match length transactions with
  | O => 1
  | n => n
  end.

(** The "Average Transaction" card, before [toFixed(2)]:
    [transactions.reduce((sum, t) => sum + t.amount, 0) /
     (transactions.length || 1)]. *)
Definition averageTransaction (transactions : list Tx.t) : float :=
  totalSpending transactions / numberOfNat (lengthOr1 transactions).

End SummaryCards.

(** * Retry logic for API calls ([fetchWithRetry])

    The same function is declared in [Dashboard.js] and in
    [SavingsPrediction.js].  The network is a function giving the outcome
    of the request made with a given value of the counter [retries]; the
    timer and the requests are recorded in a log, in the order in which
    they happen. *)

Section FetchWithRetry.
Context {Response Error : Type}.

Inductive Settled :=
  | Resolved (response : Response)
  | Rejected (error : Error).

Inductive Event :=
  | Get (retries : nat)           (* [axios.get(url, ...)] *)
  | SetTimeout (ms : Z).          (* [setTimeout(resolve, ms)], awaited *)

Inductive Completion :=
  | Return (response : Response)
  | Throw (error : Error)
  | ReturnUndefined.              (* the loop ends without a [return] *)

Variable axios_get : nat -> Settled.

(** The [while] loop, started with the counter at [retries].  [fuel]
    bounds the number of iterations; [None] means that it ran out. *)
Fixpoint retryLoop (fuel : nat) (maxRetries retries : nat)
  : option (list Event * Completion) :=
  match fuel with
  | O => None
  | S fuel' =>
      if (retries <? maxRetries)%nat then
        match axios_get retries with
        | Resolved response => Some ([Get retries], Return response)
        | Rejected error =>
            let retries' := S retries in
            if (retries' =? maxRetries)%nat then
              Some ([Get retries], Throw error)
            else
              match retryLoop fuel' maxRetries retries' with
              | Some (log, c) =>
                  Some (Get retries :: SetTimeout (1000 * Z.of_nat retries') :: log, c)
              | None => None
              end
        end
      else Some ([], ReturnUndefined)
  end.

Definition fetchWithRetryN (maxRetries : nat)
  : option (list Event * Completion) :=
  retryLoop (S maxRetries) maxRetries 0.

(** [fetchWithRetry(url)] with the default [maxRetries = 3], as every
    caller uses it. *)
Definition fetchWithRetry : option (list Event * Completion) :=
  fetchWithRetryN 3.

(** The requests and waits of the rounds that fail and are retried,
    from the counter value [from] on. *)
Definition failedRounds (from count : nat) : list Event :=
  flat_map (fun j => [Get j; SetTimeout (1000 * Z.of_nat (S j))])
           (seq from count).

Definition attempts (log : list Event) : nat :=
  length (List.filter (fun e => match e with Get _ => true | _ => false end) log).

End FetchWithRetry.

Arguments Settled : clear implicits.
Arguments Completion : clear implicits.

(** * Profile form ([UserProfile.js]) *)

Module UserProfile.

(** A numeric form field holds a number or the empty string ([None]). *)
Record FormData := mkForm {
  age : option Z;
  dependents : option Z;
  occupation : string
}.

(** Body of [POST /api/profile]. *)
Record Payload := mkPayload {
  user_id : string;
  p_age : option Z;
  p_dependents : option Z;
  p_occupation : string
}.

Record State := mkState {
  formData : FormData;
  saving : bool;
  error : option string;
  success : bool
}.

(** [!x] for a numeric field: the empty string and 0 are falsy. *)
Definition falsyNum (x : option Z) : bool :=
  match x with
  | None => true
  | Some n => n =? 0
  end.

(** [Number(x)], as the comparisons [<] and [>] coerce the field. *)
Definition toNumber (x : option Z) : Z := default 0 x.

Definition falsyString (s : string) : bool :=
  match s with
  | EmptyString => true
  | _ => false
  end.

(** The checks at the head of the [try] block: the message of the
    [Error] thrown, if any. *)
Definition validate (fd : FormData) : option string :=
  if falsyNum (age fd) || falsyString (occupation fd) then
    Some "Please fill in all required fields"%string
  else if (toNumber (age fd) <? 18) || (toNumber (age fd) >? 100) then
    Some "Age must be between 18 and 100"%string
  else if toNumber (dependents fd) <? 0 then
    Some "Number of dependents cannot be negative"%string
  else None.

Section HandleSubmit.
(** The profile store lives behind the API.  [axios_post] is the whole
    effect of [POST /api/profile] on it, and the message of the error
    the request is rejected with, if it is. *)
Context {Store : Type}.
Variable axios_post : Payload -> Store -> Store * option string.

(** [err.message || 'Failed to update profile. Please try again.'] *)
Definition messageOr (msg : string) : string :=
  if falsyString msg then "Failed to update profile. Please try again."%string
  else msg.

Definition handleSubmit (userId : string) (st : State) (store : Store)
  : State * Store :=
  (* setSaving(true); setError(null) *)
  let fd := formData st in
  match validate fd with
  | Some msg =>
      (* catch: setError(err.message || ...); finally: setSaving(false) *)
      (mkState fd false (Some (messageOr msg)) (success st), store)
  | None =>
      let payload :=
        mkPayload userId (age fd) (dependents fd) (occupation fd) in
      match axios_post payload store with
      | (store', None) => (mkState fd false None true, store')
      | (store', Some msg) =>
          (mkState fd false (Some (messageOr msg)) (success st), store')
      end
  end.
End HandleSubmit.

End UserProfile.

(** * Profile store *)

Module ProfileStore.

(** Modelled from the spec: the [upsert] of the Profile Store behind
    [POST /api/profile], whose code is not part of the frontend sources.
    At most one profile per user id; a submission overwrites the profile
    of its user, and the request is acknowledged. *)
Definition upsert (p : UserProfile.Payload)
    (store : gmap string UserProfile.Payload)
  : gmap string UserProfile.Payload * option string :=
  (<[UserProfile.user_id p := p]> store, None).

End ProfileStore.

(** * JavaScript strings *)

Module JsString.

(** A string is its sequence of UTF-16 code units. *)
Definition t : Type := list N.

(** The string of a text of ASCII characters. *)
Definition ofAscii (s : string) : t :=
  map N_of_ascii (list_ascii_of_string s).

(** The white space and the line terminators of the language, which
    [trim] removes: TAB, LF, VT, FF, CR, SPACE, NO-BREAK SPACE (U+00A0),
    OGHAM SPACE MARK (U+1680), EN QUAD to HAIR SPACE (U+2000 to U+200A),
    LINE SEPARATOR and PARAGRAPH SEPARATOR (U+2028, U+2029), NARROW
    NO-BREAK SPACE (U+202F), MEDIUM MATHEMATICAL SPACE (U+205F),
    IDEOGRAPHIC SPACE (U+3000) and ZERO WIDTH NO-BREAK SPACE (U+FEFF). *)
Definition isWhiteSpace (u : N) : bool :=
  ((9 <=? u) && (u <=? 13) || (u =? 32) || (u =? 160) || (u =? 5760)
   || (8192 <=? u) && (u <=? 8202) || (u =? 8232) || (u =? 8233)
   || (u =? 8239) || (u =? 8287) || (u =? 12288) || (u =? 65279))%N.

Fixpoint trimStart (s : t) : t :=
  match s with
  | u :: s' => if isWhiteSpace u then trimStart s' else s
  | [] => []
  end.

Definition trimEnd (s : t) : t := rev (trimStart (rev s)).

(** [s.trim()] *)
Definition trim (s : t) : t := trimEnd (trimStart s).

(** [!s]: the empty string is the one falsy string. *)
Definition falsy (s : t) : bool :=
  match s with
  | [] => true
  | _ :: _ => false
  end.

End JsString.

(** * Quick-entry parser *)

Module QuickEntryParser.

Record Parsed := mkParsed {
  description : JsString.t;
  amount : float;
  category : Category
}.

Inductive Response :=
  | Ok (data : Parsed)
  | ParseError.                   (* HTTP 400 *)

(** The parser separates the tokens of the text at the white space of
    [trim]. *)
Definition isSpace (u : N) : bool := JsString.isWhiteSpace u.

Definition isDigit (u : N) : bool :=
  ((48 <=? u) && (u <=? 57))%N.

(** [true] when the text is empty or consists of white space only. *)
Definition isBlank (s : JsString.t) : bool :=
  forallb isSpace s.

(** The maximal runs of characters that are not white space. *)
Fixpoint tokensFrom (cur : list N) (s : list N) : list JsString.t :=
  match s with
  | [] =>
      match cur with
      | [] => []
      | _ => [rev cur]
      end
  | u :: s' =>
      if isSpace u then
        match cur with
        | [] => tokensFrom [] s'
        | _ => rev cur :: tokensFrom [] s'
        end
      else tokensFrom (u :: cur) s'
  end.

Definition tokens (s : JsString.t) : list JsString.t :=
  tokensFrom [] s.

Fixpoint leadingDigits (s : JsString.t) : list N :=
  match s with
  | u :: s' => if isDigit u then u :: leadingDigits s' else []
  | [] => []
  end.

(** A numeric token starts with a decimal digit; what follows the
    digits is the optional unit ("30rs"). *)
Definition isNumeric (tok : JsString.t) : bool :=
  match leadingDigits tok with
  | [] => false
  | _ => true
  end.

Definition digitsValue (ds : list N) : Z :=
  fold_left (fun v u => 10 * v + (Z.of_N u - 48)) ds 0.

(** The amount of a numeric token, as the number of the answer. *)
Definition tokenAmount (tok : JsString.t) : float :=
  numberOfZ (digitsValue (leadingDigits tok)).

(** The tokens before the first numeric token, and that token. *)
Fixpoint splitAtNumeric (toks : list JsString.t)
  : option (list JsString.t * JsString.t) :=
  match toks with
  | [] => None
  | tok :: rest =>
      if isNumeric tok then Some ([], tok)
      else match splitAtNumeric rest with
           | Some (before, num) => Some (tok :: before, num)
           | None => None
           end
  end.

(** The words with one space between them. *)
Fixpoint joinWords (words : list JsString.t) : JsString.t :=
  match words with
  | [] => []
  | [w] => w
  | w :: rest => w ++ 32%N :: joinWords rest
  end.

Section Parse.
(** Modelled from the spec: the fixed keyword to category lookup of the
    Quick-Entry Parser ("food" is Eating_Out); the table itself is with
    the service behind the API. *)
Variable keywords : list (JsString.t * Category).

Definition lookupKeyword (tok : JsString.t) : option Category :=
  snd <$> List.find (fun kw => bool_decide (fst kw = tok)) keywords.

(** The last token that is a recognized keyword. *)
Definition lastKeyword (toks : list JsString.t) : option Category :=
  fold_left (fun found tok =>
               match lookupKeyword tok with
               | Some c => Some c
               | None => found
               end) toks None.

(** Modelled from the spec: the Quick-Entry Parser behind
    [POST /api/parse-transaction], whose code is not part of the
    frontend sources.  The text has the shape "description amount[unit]
    keyword"; the first numeric token gives the amount, the last
    recognized keyword the category, the words before the amount the
    description.  It fails with a ParseError when there is no numeric
    token, when there is no recognized keyword, and on empty or blank
    text. *)
Definition parse (text : JsString.t) : Response :=
  if isBlank text then ParseError
  else
    let toks := tokens text in
    match splitAtNumeric toks, lastKeyword toks with
    | Some (before, num), Some c =>
        Ok (mkParsed (joinWords before) (tokenAmount num) c)
    | _, _ => ParseError
    end.
End Parse.

End QuickEntryParser.

(** * Transaction form ([TransactionForm.js]) *)

Module TransactionForm.

(** [category] is [None] for the empty selection, [amount] is [None] for
    the empty string and a number otherwise. *)
Record FormData := mkForm {
  category : option Category;
  amount : option float;
  description : JsString.t;
  date : string
}.

Record State := mkState {
  formData : FormData;
  error : option string;
  quickInput : JsString.t
}.

Definition dquote : string := String (ascii_of_nat 34) EmptyString.

Definition parseFailedMessage : string :=
  "Could not parse transaction. Please use format: " +:+ dquote
    +:+ "Item amount category" +:+ dquote.

Section ParseTransactionText.
(** [POST /api/parse-transaction] with body [{ text }]. *)
Variable parse_transaction : JsString.t -> QuickEntryParser.Response.

(** [if (!quickInput.trim()) return;] then the request; a rejected
    request is caught and reported with [setError]. *)
Definition parseTransactionText (st : State) : State :=
  if JsString.falsy (JsString.trim (quickInput st)) then st
  else
    match parse_transaction (quickInput st) with
    | QuickEntryParser.Ok data =>
        let fd := formData st in
        mkState
          (mkForm (Some (QuickEntryParser.category data))
                  (Some (QuickEntryParser.amount data))
                  (QuickEntryParser.description data)
                  (date fd))
          (error st) (quickInput st)
    | QuickEntryParser.ParseError =>
        mkState (formData st) (Some parseFailedMessage) (quickInput st)
    end.
End ParseTransactionText.

End TransactionForm.

(** * Prediction engine *)

Module PredictionEngine.
Local Open Scope Qc_scope.

Record CategoryPrediction := mkPrediction {
  actual_expense : Qc;
  potential_savings : Qc;
  savings_percentage : Qc
}.

Record Totals := mkTotals {
  total_actual_expenses : Qc;
  total_potential_savings : Qc;
  total_savings_percentage : Qc
}.

Record Prediction := mkResult {
  predictions : gmap Category CategoryPrediction;
  totals : Totals
}.

(** Modelled from the spec: the baseline savings rate of a category that
    the configuration does not list (0.10). *)
Definition baseline_rate : Qc := Q2Qc (1 # 10).

Definition hundred : Qc := Q2Qc (inject_Z 100).

(** A division that faults on a zero divisor. *)
Definition checked_div (a b : Qc) : option Qc :=
  if bool_decide (b = 0) then None else Some (a / b).

(** Modelled from the spec: [100 * savings / expense], and 0 when the
    expense is 0.  [None] would be a division fault. *)
Definition percentage (savings expense : Qc) : option Qc :=
  if bool_decide (expense = 0) then Some 0
  else checked_div (hundred * savings) expense.

(** The value of [percentage], which never faults. *)
Definition guarded (savings expense : Qc) : Qc :=
  if bool_decide (expense = 0) then 0 else hundred * savings / expense.

Section Predict.
(** The configured savings rate of each category. *)
Variable rates : gmap Category Qc.

Definition rateOf (c : Category) : Qc := default baseline_rate (rates !! c).

Definition predictCategory (c : Category) (expense : Qc)
  : option CategoryPrediction :=
  let savings := expense * rateOf c in
  pct ← percentage savings expense;
  Some (mkPrediction expense savings pct).

Definition sumOf {A} (f : A -> Qc) (m : gmap Category A) : Qc :=
  map_fold (fun _ x s => s + f x) 0 m.

(** The breakdown, one category of the aggregate after the other. *)
Definition predictAll (aggregate : gmap Category Qc)
  : option (gmap Category CategoryPrediction) :=
  map_fold (fun c expense acc =>
              m ← acc;
              p ← predictCategory c expense;
              Some (<[c := p]> m))
           (Some ∅) aggregate.

(** Modelled from the spec: the Prediction Engine behind
    [GET /api/predict/{userId}], whose code is not part of the frontend
    sources.  Each category of the aggregate gets its expense, the
    expense times the rate of the category, and the guarded percentage;
    the totals are the sums of the expenses and of the savings, with
    the same guarded percentage.  [None] would be a division fault. *)
Definition predict (aggregate : gmap Category Qc) : option Prediction :=
  preds ← predictAll aggregate;
  let actual := sumOf actual_expense preds in
  let savings := sumOf potential_savings preds in
  pct ← percentage savings actual;
  Some (mkResult preds (mkTotals actual savings pct)).
End Predict.

End PredictionEngine.

(** * Requests and their outcomes, as the components see them *)

Module Axios.

(** What a [catch] block reads of a rejected request: [err.message] and
    [err.response?.status] ([None] when there was no response). *)
Record Error := mkError {
  message : string;
  response_status : option nat
}.

(** A response, with its [status] and its [data]. *)
Record Response (A : Type) := mkResponse {
  status : nat;
  data : A
}.

End Axios.

Arguments Axios.mkResponse {A}.
Arguments Axios.status {A}.
Arguments Axios.data {A}.

Inductive Endpoint :=
  | TransactionsUrl        (* /transactions/{userId} *)
  | SpendingTrendsUrl      (* /spending-trends/{userId} *)
  | ProfileUrl             (* /profile/{userId} *)
  | PredictUrl.            (* /predict/{userId} *)

(** The events of one [fetchWithRetry], with the endpoint it addresses. *)
Definition tagged (url : Endpoint) (log : list Event) : list (Endpoint * Event) :=
  map (pair url) log.

(** [await fetchWithRetry(url)] in a [try] block: the response, or the
    error for the [catch].  [None] stands for the results that the default
    [maxRetries] never gives (no result, or [undefined]). *)
Definition awaitFetch {R E : Type}
    (result : option (list Event * Completion R E))
  : option (list Event * (R + E)) :=
  match result with
  | Some (log, Return response) => Some (log, inl response)
  | Some (log, Throw error) => Some (log, inr error)
  | _ => None
  end.

(** The waits of a log, added up (milliseconds). *)
Definition totalWait (log : list Event) : Z :=
  fold_right (fun e ms => match e with SetTimeout d => d + ms | Get _ => ms end)
             0 log.

(** [x || fallback] for a string [x]. *)
Definition orElse (x fallback : string) : string :=
  match x with
  | EmptyString => fallback
  | _ => x
  end.

(** * Loading the dashboard ([fetchData] of [Dashboard.js]) *)

Module DashboardData.

Record State := mkState {
  transactions : list Tx.t;
  trendData : option TrendsData;     (* [None] for the initial [[]] *)
  loading : bool;
  error : option string;
  summaryData : SummaryData
}.

Definition initialState : State := mkState [] None true None initialSummary.

(** [txError.response?.status || 'unknown'] inside the template string. *)
Definition statusText (txError : Axios.Error) : string :=
  match Axios.response_status txError with
  | Some (S n) => NilEmpty.string_of_uint (Nat.to_uint (S n))
  | _ => "unknown"
  end.

Definition loadFailedMessage (txError : Axios.Error) : string :=
  "Couldn't load transactions: Request failed with status code "
    +:+ statusText txError.

(** The template of the outer [catch]. *)
Definition withHint (message : string) : string :=
  orElse message "Failed to connect to the server"
    +:+ ". Please check if the backend is running.".

Section FetchData.
(** The time zone of the host, and the time of the call of
    [processTransactionData]. *)
Variable tz : JsDate.TimeZone.
Variable today : Z.
Variable get_transactions :
  nat -> Settled (Axios.Response (list Tx.t)) Axios.Error.
Variable get_trends :
  nat -> Settled (Axios.Response TrendsData) Axios.Error.

(** The state after [fetchData], and the requests and waits it made. *)
Definition fetchData (st : State) : option (State * list (Endpoint * Event)) :=
  (* setLoading(true); setError(null) *)
  '(log1, r1) ← awaitFetch (fetchWithRetry get_transactions);
  match r1 with
  | inr txError =>
      (* rethrown with the new message, caught by the outer [catch] *)
      Some (mkState (transactions st) (trendData st) false
              (Some (withHint (loadFailedMessage txError))) (summaryData st),
            tagged TransactionsUrl log1)
  | inl response =>
      let transactionsData := Axios.data response in
      '(log2, r2) ← awaitFetch (fetchWithRetry get_trends);
      let log := tagged TransactionsUrl log1 ++ tagged SpendingTrendsUrl log2 in
      match r2 with
      | inl trendResponse =>
          let trends := Axios.data trendResponse in
          Some (mkState transactionsData (Some trends) false None
                  (Dashboard.processTransactionData tz today transactionsData
                     (Some trends) (summaryData st)),
                log)
      | inr trendError =>
          Some (mkState transactionsData (trendData st) false None
                  (Dashboard.processTransactionData tz today transactionsData
                     None (summaryData st)),
                log)
      end
  end.
End FetchData.

(** What the component renders. *)
Inductive View :=
  | LoadingView
  | ErrorView (message : string)
  | DashboardView.

(** [if (loading) return ...; if (error) return ...; return ...] *)
Definition view (st : State) : View :=
  if loading st then LoadingView
  else match error st with
       | Some (String c s) => ErrorView (String c s)
       | _ => DashboardView
       end.

(** The "Categories" card: [Object.keys(summaryData.byCategory).length]. *)
Definition categoriesCard (st : State) : nat :=
  size (summary_byCategory (summaryData st)).

End DashboardData.

(** * Loading the predictions ([SavingsPrediction.js]) *)

Module SavingsPrediction.

Section Component.
(** The bodies of the profile and of the prediction responses. *)
Context {ProfileData PredictionData : Type}.

Record State := mkState {
  predictions : option PredictionData;
  loading : bool;
  error : option string;
  hasProfile : bool;
  hasTransactions : bool
}.

Definition initialState : State := mkState None true None true true.

Variable get_profile : nat -> Settled (Axios.Response ProfileData) Axios.Error.
Variable get_transactions :
  nat -> Settled (Axios.Response (list Tx.t)) Axios.Error.
Variable get_predict :
  nat -> Settled (Axios.Response PredictionData) Axios.Error.

(** The template of the [catch] of [fetchPredictions]. *)
Definition failedMessage (err : Axios.Error) : string :=
  "Failed to fetch predictions: " +:+ orElse (Axios.message err) "Unknown error".

(** [err.response && err.response.status === 404] *)
Definition is404 (err : Axios.Error) : bool :=
  match Axios.response_status err with
  | Some n => (n =? 404)%nat
  | None => false
  end.

(** [response.data && response.data.length > 0] *)
Definition hasData (transactionsData : list Tx.t) : bool :=
  match transactionsData with
  | [] => false
  | _ :: _ => true
  end.

(** The state after [fetchPredictions] (with [checkUserProfile] and
    [checkUserTransactions] in their places), and the requests and waits
    it made. *)
Definition fetchPredictions (st : State)
  : option (State * list (Endpoint * Event)) :=
  (* setLoading(true); setError(null) *)
  '(log1, r1) ← awaitFetch (fetchWithRetry get_profile);
  let log1 := tagged ProfileUrl log1 in
  match r1 with
  | inr err =>
      if is404 err then
        (* setHasProfile(false); setLoading(false); return false *)
        Some (mkState (predictions st) false None false (hasTransactions st),
              log1)
      else
        (* throw err, caught by [fetchPredictions] *)
        Some (mkState (predictions st) false (Some (failedMessage err))
                (hasProfile st) (hasTransactions st),
              log1)
  | inl _ =>
      (* setHasProfile(true) *)
      '(log2, r2) ← awaitFetch (fetchWithRetry get_transactions);
      let log2 := log1 ++ tagged TransactionsUrl log2 in
      match r2 with
      | inr _ =>
          (* setHasTransactions(false); setLoading(false); return false *)
          Some (mkState (predictions st) false None true false, log2)
      | inl response =>
          if hasData (Axios.data response) then
            '(log3, r3) ← awaitFetch (fetchWithRetry get_predict);
            let log3 := log2 ++ tagged PredictUrl log3 in
            match r3 with
            | inl response =>
                Some (mkState (Some (Axios.data response)) false None true true,
                      log3)
            | inr err =>
                Some (mkState (predictions st) false (Some (failedMessage err))
                        true true,
                      log3)
            end
          else
            (* setHasTransactions(false); return: [loading] stays set *)
            Some (mkState (predictions st) true None true false, log2)
      end
  end.

Inductive View :=
  | ProfileMissingView
  | NoTransactionsView
  | LoadingView
  | ErrorView (message : string)
  | PredictionView (predictions : option PredictionData).

(** The chain of [if (...) return ...] of the component. *)
Definition view (st : State) : View :=
  if negb (hasProfile st) then ProfileMissingView
  else if negb (hasTransactions st) then NoTransactionsView
  else if loading st then LoadingView
  else match error st with
       | Some (String c s) => ErrorView (String c s)
       | _ => PredictionView (predictions st)
       end.

End Component.

Arguments State : clear implicits.
Arguments View : clear implicits.

End SavingsPrediction.

(** * Loading the profile ([UserProfile.js]) *)

Module ProfileForm.

(** [useState] of the component: the form is blank but for 0 dependents. *)
Definition initialState : UserProfile.State :=
  UserProfile.mkState (UserProfile.mkForm None (Some 0) EmptyString)
    false None false.

(** The body of [GET /api/profile/{userId}], as far as the form reads it. *)
Record ProfileData := mkProfile {
  data_age : option Z;
  data_dependents : option Z;
  data_occupation : string
}.

(** [fetchUserProfile]: the stored profile fills the form; a 404 is
    passed over in silence, any other failure is reported.  The second
    component is [loading]. *)
Definition fetchUserProfile
    (get_profile : Settled (Axios.Response ProfileData) Axios.Error)
    (st : UserProfile.State) : UserProfile.State * bool :=
  match get_profile with
  | Resolved response =>
      let d := Axios.data response in
      (UserProfile.mkState
         (UserProfile.mkForm (data_age d) (data_dependents d) (data_occupation d))
         (UserProfile.saving st) (UserProfile.error st) (UserProfile.success st),
       false)
  | Rejected err =>
      match Axios.response_status err with
      | Some 404%nat => (st, false)
      | _ =>
          (UserProfile.mkState (UserProfile.formData st) (UserProfile.saving st)
             (Some "Failed to fetch profile data. Please try again later."%string)
             (UserProfile.success st),
           false)
      end
  end.

(** A backend that accepts every request and keeps the bodies it got, in
    their order; it shows which requests a handler sends. *)
Definition recordPost (p : UserProfile.Payload) (sent : list UserProfile.Payload)
  : list UserProfile.Payload * option string :=
  (sent ++ [p], None).

End ProfileForm.

(** * Submitting a transaction ([handleSubmit] of [TransactionForm.js]) *)

Module TransactionSubmit.

(** Body of [POST /api/transactions]. *)
Record Payload := mkPayload {
  user_id : string;
  category : option Category;
  amount : option float;
  description : JsString.t;
  date : string
}.

(** The state of the component: the part the quick entry works on, and
    the flags of the submission. *)
Record State := mkState {
  form : TransactionForm.State;
  loading : bool;
  success : bool
}.

(** [new Date().toISOString().split('T')[0]]: what comes before the "T"
    of the rendering is its calendar-date part. *)
Definition defaultDate (now : Z) : string :=
  JsDate.isoDatePart (JsDate.dayOf now).

Definition blankForm (now : Z) : TransactionForm.FormData :=
  TransactionForm.mkForm None None [] (defaultDate now).

Definition initialState (now : Z) : State :=
  mkState (TransactionForm.mkState (blankForm now) None []) false false.

(** [!formData.amount]: the empty string is falsy, and so are the
    numbers 0, -0 and NaN. *)
Definition falsyAmount (x : option float) : bool :=
  match x with
  | None => true
  | Some a => falsyNumber a
  end.

(** [!formData.category || !formData.amount || !formData.description] *)
Definition incomplete (fd : TransactionForm.FormData) : bool :=
  match TransactionForm.category fd with None => true | Some _ => false end
  || falsyAmount (TransactionForm.amount fd)
  || JsString.falsy (TransactionForm.description fd).

Section HandleSubmit.
(** The transaction store lives behind the API.  [axios_post] is the
    whole effect of [POST /api/transactions] on it, and the message of
    the error the request is rejected with, if it is. *)
Context {Store : Type}.
Variable axios_post : Payload -> Store -> Store * option string.
(** The time at which the form is reset. *)
Variable now : Z.

Definition handleSubmit (userId : string) (st : State) (store : Store)
  : State * Store :=
  (* setLoading(true); setError(null) *)
  let fd := TransactionForm.formData (form st) in
  let quick := TransactionForm.quickInput (form st) in
  let failed message :=
    mkState
      (TransactionForm.mkState fd
         (Some (orElse message "Failed to add transaction. Please try again."))
         quick)
      false (success st) in
  if incomplete fd then
    (failed "Please fill in all required fields"%string, store)
  else
    let payload :=
      mkPayload userId (TransactionForm.category fd) (TransactionForm.amount fd)
        (TransactionForm.description fd) (TransactionForm.date fd) in
    match axios_post payload store with
    | (store', None) =>
        (mkState (TransactionForm.mkState (blankForm now) None []) false true,
         store')
    | (store', Some message) => (failed message, store')
    end.
End HandleSubmit.

(** A backend that accepts every request and keeps the bodies it got, in
    their order; it shows which requests a handler sends. *)
Definition recordPost (p : Payload) (sent : list Payload)
  : list Payload * option string :=
  (sent ++ [p], None).

(** The quick entry on the whole state: [parseTransactionText]. *)
Definition quickEntry
    (parse_transaction : JsString.t -> QuickEntryParser.Response)
    (st : State) : State :=
  mkState (TransactionForm.parseTransactionText parse_transaction (form st))
    (loading st) (success st).

End TransactionSubmit.

(** * Sample data *)

Module Sample.

(** 2026-11-01T15:54:56Z. *)
Definition now : Z := 1793555696000.

(** 2026-11-02T00:30Z, which is 19:30 of 2026-11-01 in New York, the day
    the clocks there went back. *)
Definition afterFallBack : Z := 1793579400000.


(** 2026-03-08T23:30Z, which is 19:30 of 2026-03-08 in New York, the day
    the clocks there went forward. *)
Definition afterSpringForward : Z := 1773012600000.

Definition rice : Tx.t := Tx.mk Groceries 120.5 "Rice" "2026-10-30".
Definition train : Tx.t := Tx.mk Transport 30.25 "Train" "2026-11-02".
Definition milk : Tx.t := Tx.mk Groceries 60 "Milk" "2026-10-30".
Definition later : Tx.t := Tx.mk Utilities 950 "Power" "2026-11-03".

(** Amounts of 0.1, 0.2 and 0.4, as the nearest doubles. *)
Definition tea : Tx.t :=
  Tx.mk Groceries 0x1.999999999999ap-4 "Tea" "2026-10-30".
Definition bus : Tx.t :=
  Tx.mk Transport 0x1.999999999999ap-3 "Bus" "2026-10-30".
Definition salt : Tx.t :=
  Tx.mk Groceries 0x1.999999999999ap-2 "Salt" "2026-10-31".

(** Trend data of the API with an entry for 2026-11-02. *)
Definition apiTrend : TrendsData :=
  mkTrends (Some [Trend.mk "2026-11-02" 30.25]).

(** A network on which the first two requests fail. *)
Definition flaky {A : Type} (a : A) (retries : nat)
  : Settled (Axios.Response A) Axios.Error :=
  if (retries <? 2)%nat then Rejected (Axios.mkError "Network Error" None)
  else Resolved (Axios.mkResponse 200 a).

(** A network on which every request fails with the given status. *)
Definition failing {A : Type} (status : nat) (retries : nat)
  : Settled (Axios.Response A) Axios.Error :=
  Rejected (Axios.mkError "Request failed" (Some status)).

(** A profile form with the occupation chosen. *)
Definition student (age dependents : option Z) : UserProfile.State :=
  UserProfile.mkState (UserProfile.mkForm age dependents "Student")
    false None false.

(** A transaction form filled in with a refund. *)
Definition refund : TransactionSubmit.State :=
  TransactionSubmit.mkState
    (TransactionForm.mkState
       (TransactionForm.mkForm (Some Groceries) (Some (-1)%float)
          (JsString.ofAscii "Refund") "2026-11-01")
       None [])
    false false.

End Sample.

(** * Part II: properties *)

(** * Facts about numbers *)

Section NumberFacts.

Lemma SFcompare_refl s m e :
  SFcompare (S754_finite s m e) (S754_finite s m e) = Some Eq.
Proof.
  cbn. rewrite Z.compare_refl, Pos.compare_cont_refl. by destruct s.
Qed.

Lemma Prim2SF_zero : Prim2SF 0 = S754_zero false.
Proof. reflexivity. Qed.

(** The falsy numbers are the two zeros and [NaN]. *)
Lemma falsyNumber_spec x :
  falsyNumber x =
  match Prim2SF x with
  | S754_zero _ | S754_nan => true
  | _ => false
  end.
Proof.
  unfold falsyNumber, is_nan. rewrite !FloatAxioms.eqb_spec, Prim2SF_zero.
  destruct (Prim2SF x) as [s|s| |s m e]; unfold SFeqb.
  - reflexivity.
  - by destruct s.
  - reflexivity.
  - rewrite SFcompare_refl. by destruct s.
Qed.

Lemma falsyNumber_quanta x : falsyNumber x = true -> quanta x = 0.
Proof.
  rewrite falsyNumber_spec. unfold quanta. by destruct (Prim2SF x).
Qed.

(** A positive number of [n] binary digits lies between 2^(n-1) and 2^n. *)
Lemma digits2_bounds p :
  2 ^ (Z.pos (digits2_pos p) - 1) <= Z.pos p < 2 ^ Z.pos (digits2_pos p).
Proof.
  induction p as [p IH|p IH|]; cbn [digits2_pos].
  - rewrite Pos2Z.inj_succ.
    replace (Z.succ (Z.pos (digits2_pos p)) - 1) with (Z.succ (Z.pos (digits2_pos p) - 1)) by lia.
    rewrite !Z.pow_succ_r by lia. lia.
  - rewrite Pos2Z.inj_succ.
    replace (Z.succ (Z.pos (digits2_pos p)) - 1) with (Z.succ (Z.pos (digits2_pos p) - 1)) by lia.
    rewrite !Z.pow_succ_r by lia. lia.
  - cbn. lia.
Qed.

Lemma digits2_unique p n :
  2 ^ (n - 1) <= Z.pos p < 2 ^ n -> Z.pos (digits2_pos p) = n.
Proof.
  intros Hn. pose proof (digits2_bounds p) as Hd.
  set (d := Z.pos (digits2_pos p)) in *.
  assert (0 < d) by (subst d; lia).
  assert (0 < n).
  { destruct (Z.lt_ge_cases 0 n); [done|].
    destruct (Z.eq_dec n 0) as [->|]; [cbn in Hn; lia|].
    rewrite (Z.pow_neg_r 2 n) in Hn by lia. lia. }
  destruct (Z.lt_total d n) as [Hlt|[Heq|Hgt]]; [|done|].
  - assert (2 ^ d <= 2 ^ (n - 1)) by (apply Z.pow_le_mono_r; lia). lia.
  - assert (2 ^ n <= 2 ^ (d - 1)) by (apply Z.pow_le_mono_r; lia). lia.
Qed.

Lemma digits2_iter_xO p k :
  Z.pos (digits2_pos (Pos.iter xO p k)) = Z.pos (digits2_pos p) + Z.pos k.
Proof.
  induction k as [|k IH] using Pos.peano_ind.
  - cbn. lia.
  - rewrite Pos.iter_succ. cbn [digits2_pos]. rewrite Pos2Z.inj_succ, IH. lia.
Qed.

Lemma shr_1_m r : 0 <= shr_m r -> shr_m (shr_1 r) = shr_m r / 2.
Proof.
  destruct r as [m r s]. cbn [shr_m]. intros Hm.
  destruct m as [|[p|p|]|p]; cbn [shr_1 shr_m]; try lia.
  - reflexivity.
  - rewrite Pos2Z.inj_xI. apply (Z.div_unique _ _ _ 1); lia.
  - rewrite Pos2Z.inj_xO. apply (Z.div_unique _ _ _ 0); lia.
  - reflexivity.
Qed.

Lemma shr_iter_m k : forall r,
  0 <= shr_m r -> shr_m (SpecFloat.iter_pos shr_1 k r) = shr_m r / 2 ^ Z.pos k.
Proof.
  induction k as [k IH|k IH|]; intros r Hr; cbn [SpecFloat.iter_pos].
  - assert (H1 : 0 <= shr_m (shr_1 r)) by (rewrite shr_1_m by done; apply Z.div_pos; lia).
    assert (H2 : 0 <= shr_m (SpecFloat.iter_pos shr_1 k (shr_1 r)))
      by (rewrite IH by done; apply Z.div_pos; [lia | apply Z.pow_pos_nonneg; lia]).
    rewrite IH, IH, shr_1_m by done.
    rewrite !Z.div_div by (try apply Z.pow_pos_nonneg; lia).
    f_equal. rewrite Pos2Z.inj_xI, <- Z.pow_add_r by lia.
    rewrite <- (Z.pow_1_r 2) at 1. rewrite <- Z.pow_add_r by lia. f_equal. lia.
  - assert (H2 : 0 <= shr_m (SpecFloat.iter_pos shr_1 k r))
      by (rewrite IH by done; apply Z.div_pos; [lia | apply Z.pow_pos_nonneg; lia]).
    rewrite IH, IH by done.
    rewrite !Z.div_div by (try apply Z.pow_pos_nonneg; lia).
    f_equal. rewrite Pos2Z.inj_xO, <- Z.pow_add_r by lia. f_equal. lia.
  - rewrite shr_1_m by done. reflexivity.
Qed.

Lemma round_nearest_even_range m l :
  round_nearest_even m l = m \/ round_nearest_even m l = m + 1.
Proof.
  destruct l as [|[]]; cbn; auto. destruct (Z.even m); auto.
Qed.

(** Rounding a positive integer gives a valid double that is finite and
    positive, or infinite. *)
Lemma binary_round_pos p :
  let x := binary_round prec emax false p 0 in
  valid_binary x = true /\
  match x with
  | S754_finite false _ _ | S754_infinity false => True
  | _ => False
  end.
Proof.
  cbv zeta. unfold binary_round.
  pose proof (digits2_bounds p) as Hb.
  set (d := Z.pos (digits2_pos p)) in *.
  assert (Hd : 0 < d) by (subst d; lia).
  rewrite Z.add_0_r.
  destruct (Z.le_gt_cases d 53) as [Hle|Hgt].
  - (* the integer fits the mantissa: it is shifted left, and nothing is rounded *)
    assert (Hf : fexp prec emax d = d - 53).
    { unfold fexp, SpecFloat.emin, emax, prec. lia. }
    rewrite Hf.
    assert (Hal : exists mz, shl_align p 0 (d - 53) = (mz, d - 53) /\
                    Z.pos (digits2_pos mz) = 53).
    { unfold shl_align. destruct (d - 53 - 0) as [|k|k] eqn:E; try lia.
      - exists p. split; [f_equal; lia | lia].
      - exists (Pos.iter xO p k). split; [done|].
        rewrite digits2_iter_xO. lia. }
    destruct Hal as (mz & -> & Hmz).
    unfold binary_round_aux, shr_fexp. cbn [Zdigits2]. rewrite Hmz.
    assert (Hf2 : fexp prec emax (53 + (d - 53)) - (d - 53) = 0).
    { unfold fexp, SpecFloat.emin, emax, prec. lia. }
    rewrite Hf2. cbn [shr shr_record_of_loc shr_m loc_of_shr_record round_nearest_even Zdigits2].
    rewrite Hmz, Hf2. cbn [shr shr_record_of_loc shr_m].
    rewrite (proj2 (Z.leb_le (d - 53) (emax - prec))) by (unfold emax, prec; lia).
    split; [|done]. cbn. unfold bounded, canonical_mantissa. rewrite Hmz.
    apply andb_true_intro. split; [apply Z.eqb_eq | apply Z.leb_le];
      unfold fexp, SpecFloat.emin, emax, prec; lia.
  - (* more digits than the mantissa has: shifted right and rounded *)
    assert (Hf : fexp prec emax d = d - 53).
    { unfold fexp, SpecFloat.emin, emax, prec. lia. }
    rewrite Hf.
    assert (Hal : shl_align p 0 (d - 53) = (p, 0)).
    { unfold shl_align. destruct (d - 53 - 0) as [|k|k] eqn:E; try lia; done. }
    rewrite Hal. unfold binary_round_aux, shr_fexp. cbn [Zdigits2]. fold d.
    rewrite Z.add_0_r, Hf, Z.sub_0_r.
    destruct (d - 53) as [|k|k] eqn:Ek; try lia.
    cbn [shr shr_record_of_loc].
    set (r0 := {| shr_m := Z.pos p; shr_r := false; shr_s := false |}).
    pose proof (shr_iter_m k r0 ltac:(cbn; lia)) as Hq. cbn [shr_m r0] in Hq.
    set (mrs := SpecFloat.iter_pos shr_1 k r0) in *.
    assert (Hqb : 2 ^ 52 <= shr_m mrs < 2 ^ 53).
    { rewrite Hq. assert (0 < 2 ^ Z.pos k) by (apply Z.pow_pos_nonneg; lia). split.
      - apply Z.div_le_lower_bound; [lia|].
        rewrite <- Z.pow_add_r by lia.
        replace (Z.pos k + 52) with (d - 1) by lia. lia.
      - apply Z.div_lt_upper_bound; [lia|].
        rewrite <- Z.pow_add_r by lia.
        replace (Z.pos k + 53) with d by lia. lia. }
    assert (Hm1 : exists q1, round_nearest_even (shr_m mrs) (loc_of_shr_record mrs) = Z.pos q1 /\
                     2 ^ 52 <= Z.pos q1 <= 2 ^ 53).
    { destruct (round_nearest_even_range (shr_m mrs) (loc_of_shr_record mrs))
        as [E | E]; rewrite E.
      - destruct (shr_m mrs) as [|q1|q1]; try (cbn in Hqb; lia). exists q1. lia.
      - destruct (shr_m mrs + 1) as [|q1|q1] eqn:E1; try lia. exists q1. lia. }
    destruct Hm1 as (q1 & -> & Hm1).
    rewrite Z.add_0_l. cbn [Zdigits2].
    destruct (Z.eq_dec (Z.pos q1) (2 ^ 53)) as [Heq|Hne].
    + (* the mantissa was rounded up to 2^53: one more shift *)
      assert (Hdg : Z.pos (digits2_pos q1) = 54).
      { apply digits2_unique. rewrite Heq. cbn. lia. }
      rewrite Hdg.
      assert (Hf3 : fexp prec emax (54 + Z.pos k) - Z.pos k = 1).
      { unfold fexp, SpecFloat.emin, emax, prec. lia. }
      rewrite Hf3. cbn [shr shr_record_of_loc SpecFloat.iter_pos].
      assert (Hm : Z.pos q1 = 9007199254740992) by (rewrite Heq; reflexivity).
      injection Hm as ->. cbn [shr_1 shr_m].
      destruct (Z.leb_spec (Z.pos k + 1) (emax - prec)) as [Hk|Hk]; [|done].
      split; [|done]. cbn. unfold bounded, canonical_mantissa.
      apply andb_true_intro. split; [apply Z.eqb_eq | apply Z.leb_le]; [|done].
      cbn [digits2_pos Pos.succ]. unfold fexp, SpecFloat.emin, emax, prec in *. lia.
    + assert (Hdg : Z.pos (digits2_pos q1) = 53).
      { apply digits2_unique. change (53 - 1) with 52. lia. }
      rewrite Hdg.
      assert (Hf3 : fexp prec emax (53 + Z.pos k) - Z.pos k = 0).
      { unfold fexp, SpecFloat.emin, emax, prec. lia. }
      rewrite Hf3. cbn [shr shr_record_of_loc shr_m].
      destruct (Z.leb_spec (Z.pos k) (emax - prec)) as [Hk|Hk]; [|done].
      split; [|done]. cbn. unfold bounded, canonical_mantissa. rewrite Hdg.
      apply andb_true_intro. split; [apply Z.eqb_eq | apply Z.leb_le]; [|done].
      unfold fexp, SpecFloat.emin, emax, prec in *. lia.
Qed.

(** The number of a positive integer is truthy: it is neither zero nor
    [NaN]. *)
Lemma numberOfZ_truthy z : 0 < z -> falsyNumber (numberOfZ z) = false.
Proof.
  intros Hz. rewrite falsyNumber_spec. unfold numberOfZ.
  destruct z as [|p|p]; try lia. cbn [binary_normalize].
  destruct (binary_round_pos p) as [Hv Hx]. rewrite Prim2SF_SF2Prim by done.
  by destruct (binary_round prec emax false p 0) as [[]|[]| |[] ? ?].
Qed.

Lemma numberOfNat_truthy n : n <> 0%nat -> falsyNumber (numberOfNat n) = false.
Proof. intros Hn. apply numberOfZ_truthy. lia. Qed.

(** Zero is no unit of 2^-1074. *)
Lemma quanta_zero : quanta 0 = 0.
Proof. reflexivity. Qed.

(** Two doubles of the same value have the same mantissa and exponent. *)
Lemma canonical_unique m1 e1 m2 e2 :
  bounded prec emax m1 e1 = true -> bounded prec emax m2 e2 = true ->
  Z.pos m1 * 2 ^ (e1 + 1074) = Z.pos m2 * 2 ^ (e2 + 1074) ->
  m1 = m2 /\ e1 = e2.
Proof.
  unfold bounded, canonical_mantissa, fexp, SpecFloat.emin, emax, prec.
  intros [H1%Z.eqb_eq _]%andb_prop [H2%Z.eqb_eq _]%andb_prop Hv.
  pose proof (digits2_bounds m1) as B1. pose proof (digits2_bounds m2) as B2.
  set (d1 := Z.pos (digits2_pos m1)) in *. set (d2 := Z.pos (digits2_pos m2)) in *.
  assert (Hd1 : 0 < d1) by (subst d1; lia). assert (Hd2 : 0 < d2) by (subst d2; lia).
  assert (He1 : 0 <= e1 + 1074) by lia. assert (He2 : 0 <= e2 + 1074) by lia.
  assert (P1 : 0 < 2 ^ (e1 + 1074)) by (apply Z.pow_pos_nonneg; lia).
  assert (P2 : 0 < 2 ^ (e2 + 1074)) by (apply Z.pow_pos_nonneg; lia).
  assert (L1 : 2 ^ (d1 - 1 + (e1 + 1074)) <= Z.pos m1 * 2 ^ (e1 + 1074) < 2 ^ (d1 + (e1 + 1074))).
  { rewrite (Z.pow_add_r 2 (d1 - 1)), (Z.pow_add_r 2 d1) by lia. split.
    - apply Z.mul_le_mono_nonneg_r; lia.
    - apply Z.mul_lt_mono_pos_r; lia. }
  assert (L2 : 2 ^ (d2 - 1 + (e2 + 1074)) <= Z.pos m2 * 2 ^ (e2 + 1074) < 2 ^ (d2 + (e2 + 1074))).
  { rewrite (Z.pow_add_r 2 (d2 - 1)), (Z.pow_add_r 2 d2) by lia. split.
    - apply Z.mul_le_mono_nonneg_r; lia.
    - apply Z.mul_lt_mono_pos_r; lia. }
  assert (Hsum : d1 + e1 = d2 + e2).
  { destruct (Z.lt_total (d1 + e1) (d2 + e2)) as [Hlt|[Heq|Hgt]]; [|done|].
    - assert (2 ^ (d1 + (e1 + 1074)) <= 2 ^ (d2 - 1 + (e2 + 1074)))
        by (apply Z.pow_le_mono_r; lia). lia.
    - assert (2 ^ (d2 + (e2 + 1074)) <= 2 ^ (d1 - 1 + (e1 + 1074)))
        by (apply Z.pow_le_mono_r; lia). lia. }
  assert (He : e1 = e2) by lia.
  split; [|done]. subst e2. apply Pos2Z.inj. nia.
Qed.

(** Finite doubles of the same value are equal numbers. *)
Lemma quanta_eqb x y :
  isFinite x = true -> isFinite y = true -> quanta x = quanta y ->
  (x =? y)%float = true.
Proof.
  unfold isFinite, quanta. rewrite FloatAxioms.eqb_spec.
  pose proof (Prim2SF_valid x) as Vx. pose proof (Prim2SF_valid y) as Vy.
  destruct (Prim2SF x) as [sx|sx| |sx mx ex], (Prim2SF y) as [sy|sy| |sy my ey];
    try discriminate; intros _ _ Hq.
  - reflexivity.
  - exfalso. cbn in Vy. apply andb_prop in Vy as [Vy _].
    unfold canonical_mantissa, fexp, SpecFloat.emin, emax, prec in Vy.
    apply Z.eqb_eq in Vy.
    assert (0 < 2 ^ (ey + 1074)) by (apply Z.pow_pos_nonneg; lia).
    destruct sy; nia.
  - exfalso. cbn in Vx. apply andb_prop in Vx as [Vx _].
    unfold canonical_mantissa, fexp, SpecFloat.emin, emax, prec in Vx.
    apply Z.eqb_eq in Vx.
    assert (0 < 2 ^ (ex + 1074)) by (apply Z.pow_pos_nonneg; lia).
    destruct sx; nia.
  - cbn in Vx, Vy.
    assert (Hx : 0 < Z.pos mx * 2 ^ (ex + 1074)).
    { apply andb_prop in Vx as [Vx _].
      unfold canonical_mantissa, fexp, SpecFloat.emin, emax, prec in Vx.
      apply Z.eqb_eq in Vx.
      assert (0 < 2 ^ (ex + 1074)) by (apply Z.pow_pos_nonneg; lia). nia. }
    assert (Hy : 0 < Z.pos my * 2 ^ (ey + 1074)).
    { apply andb_prop in Vy as [Vy _].
      unfold canonical_mantissa, fexp, SpecFloat.emin, emax, prec in Vy.
      apply Z.eqb_eq in Vy.
      assert (0 < 2 ^ (ey + 1074)) by (apply Z.pow_pos_nonneg; lia). nia. }
    assert (Hs : sx = sy) by (destruct sx, sy; try done; lia).
    subst sy.
    assert (Hv : Z.pos mx * 2 ^ (ex + 1074) = Z.pos my * 2 ^ (ey + 1074))
      by (destruct sx; lia).
    destruct (canonical_unique mx ex my ey Vx Vy Hv) as [-> ->].
    unfold SFeqb. by rewrite SFcompare_refl.
Qed.

Lemma exactAdd_spec x y :
  exactAdd x y = true ->
  isFinite (x + y) = true /\ quanta (x + y) = quanta x + quanta y.
Proof.
  unfold exactAdd. intros [Hf Hq%Z.eqb_eq]%andb_prop. done.
Qed.

(** A sum without rounding is finite and has the sum of the values. *)
Lemma sumExact_quanta amounts : forall s,
  isFinite s = true -> sumExact s amounts = true ->
  isFinite (fold_left PrimFloat.add amounts s) = true /\
  quanta (fold_left PrimFloat.add amounts s) =
  quanta s + fold_right Z.add 0 (map quanta amounts).
Proof.
  induction amounts as [|a amounts IH]; intros s Hs Hex; cbn [fold_left map fold_right].
  - split; [done | lia].
  - cbn [sumExact] in Hex. apply andb_prop in Hex as [Ha Hrest].
    apply exactAdd_spec in Ha as [Hf Hq].
    destruct (IH _ Hf Hrest) as [IHf IHq]. split; [done|]. lia.
Qed.

Lemma zsum_Permutation (l k : list Z) :
  Permutation l k -> fold_right Z.add 0 l = fold_right Z.add 0 k.
Proof. induction 1; cbn; lia. Qed.

End NumberFacts.

(** * Facts about dates *)

Example toISODate_epoch : JsDate.toISODate 0 = "1970-01-01"%string.
Proof. reflexivity. Qed.

Example toISODate_2026 : JsDate.toISODate Sample.now = "2026-11-01"%string.
Proof. reflexivity. Qed.

Example toISODate_leap : JsDate.toISODate 1709164800000 = "2024-02-29"%string.
Proof. reflexivity. Qed.

Example toISODate_before_epoch : JsDate.toISODate (-1) = "1969-12-31"%string.
Proof. reflexivity. Qed.

Example toISODate_expanded :
  JsDate.toISODate 253402300800000 = "+010000-01"%string.
Proof. reflexivity. Qed.

(** A zone with one offset all year is steady at every time. *)
Lemma steadyOffset_constant (offset today : Z) :
  steadyOffset (fun _ _ => offset) today.
Proof. by intros i _. Qed.

(** With a steady offset, [setDate(getDate() - i)] goes back by [i]
    times 24 hours. *)
Lemma minusDays_steady tz today i :
  steadyOffset tz today -> (i < 7)%nat ->
  JsDate.minusDays tz today i = today - Z.of_nat i * JsDate.msPerDay.
Proof.
  intros Hs Hi. unfold JsDate.minusDays, JsDate.UTC.
  rewrite (Hs i Hi). unfold JsDate.LocalTime. lia.
Qed.

Lemma dayOf_minus today i :
  JsDate.dayOf (today - Z.of_nat i * JsDate.msPerDay) =
  JsDate.dayOf today - Z.of_nat i.
Proof.
  unfold JsDate.dayOf.
  replace (today - Z.of_nat i * JsDate.msPerDay)
    with (today + (- Z.of_nat i) * JsDate.msPerDay) by ring.
  rewrite Z.div_add by (unfold JsDate.msPerDay; lia). ring.
Qed.

(** With a steady offset the window is made of the seven consecutive
    days that end with the day of [today]. *)
Lemma last7Days_days tz today :
  steadyOffset tz today ->
  last7Days tz today =
  map (fun k => JsDate.dateOfDay (JsDate.dayOf today - 6 + Z.of_nat k)) (seq 0 7).
Proof.
  intros Hs. unfold last7Days, JsDate.toISODate. cbn [seq map rev app].
  rewrite !minusDays_steady by (done || lia). rewrite !dayOf_minus.
  repeat (apply (f_equal2 cons); [f_equal; lia |]). reflexivity.
Qed.

Lemma length_last7Days tz today : length (last7Days tz today) = 7%nat.
Proof. reflexivity. Qed.

(** The clocks of New York: after the change of 2026-11-01 the window
    misses that day, and after the change of 2026-03-08 it has that day
    twice. *)
Example last7Days_fall_back :
  last7Days JsDate.newYork Sample.afterFallBack =
  ["2026-10-26"; "2026-10-27"; "2026-10-28"; "2026-10-29"; "2026-10-30";
   "2026-10-31"; "2026-11-02"]%string.
Proof. reflexivity. Qed.

Example last7Days_spring_forward :
  last7Days JsDate.newYork Sample.afterSpringForward =
  ["2026-03-03"; "2026-03-04"; "2026-03-05"; "2026-03-06"; "2026-03-07";
   "2026-03-08"; "2026-03-08"]%string.
Proof. reflexivity. Qed.

Section DateFacts.
Import JsDate.

Lemma doe_ok_from_spec n : forall lo doe,
  doe_ok_from n lo = true -> lo <= doe < lo + Z.of_nat n -> doe_ok doe = true.
Proof.
  induction n as [|n IH]; intros lo doe Hall Hr; [lia|].
  cbn [doe_ok_from] in Hall. apply andb_prop in Hall as [Hlo Hrest].
  destruct (Z.eq_dec doe lo) as [->|Hne]; [done|].
  apply (IH (lo + 1)); [done | lia].
Qed.

Lemma doe_ok_all : doe_ok_from (Z.to_nat 146097) 0 = true.
Proof. vm_cast_no_check (eq_refl true). Qed.

Lemma doe_ok_range doe : 0 <= doe < 146097 -> doe_ok doe = true.
Proof.
  intros Hr. apply (doe_ok_from_spec _ 0 doe doe_ok_all).
  rewrite Z2Nat.id; lia.
Qed.

Lemma civil_from_days_era z :
  civil_from_days z =
  let era := (z + 719468) / 146097 in
  let '(yoe, m, d) := civil_of_doe (z + 719468 - era * 146097) in
  (if m <=? 2 then yoe + era * 400 + 1 else yoe + era * 400, m, d).
Proof. reflexivity. Qed.

Lemma civil_roundtrip z :
  let '(y, m, d) := civil_from_days z in
  days_from_civil y m d = z /\ 1 <= m <= 12 /\ 1 <= d <= 31.
Proof.
  rewrite civil_from_days_era. cbv zeta.
  set (era := (z + 719468) / 146097).
  set (doe := z + 719468 - era * 146097).
  assert (Hdoe : 0 <= doe < 146097).
  { subst doe era. pose proof (Z.div_mod (z + 719468) 146097 ltac:(lia)).
    pose proof (Z.mod_pos_bound (z + 719468) 146097 ltac:(lia)). lia. }
  pose proof (doe_ok_range doe Hdoe) as Hok. unfold doe_ok in Hok.
  destruct (civil_of_doe doe) as [[yoe m] d].
  repeat (apply andb_prop in Hok; destruct Hok as [Hok ?]).
  unfold days_from_civil.
  assert (Hy : (if m <=? 2 then (if m <=? 2 then yoe + era * 400 + 1 else yoe + era * 400) - 1
                else (if m <=? 2 then yoe + era * 400 + 1 else yoe + era * 400))
               = yoe + era * 400) by (destruct (m <=? 2); lia).
  rewrite Hy.
  assert (Hera : (yoe + era * 400) / 400 = era).
  { rewrite Z.div_add by lia. rewrite Z.div_small by lia. lia. }
  rewrite Hera.
  replace (yoe + era * 400 - era * 400) with yoe by lia.
  split; [|lia]. subst doe. lia.
Qed.

Lemma digit_inj a b : digit a = digit b -> a mod 10 = b mod 10.
Proof.
  unfold digit. intros H. apply (f_equal nat_of_ascii) in H.
  pose proof (Z.mod_pos_bound a 10 ltac:(lia)).
  pose proof (Z.mod_pos_bound b 10 ltac:(lia)).
  rewrite !nat_ascii_embedding in H by lia. lia.
Qed.

Lemma yearString_four y : 0 <= y <= 9999 -> yearString y = pad 4 y.
Proof.
  intros Hy. unfold yearString.
  by rewrite (proj2 (Z.leb_le 0 y)), (proj2 (Z.leb_le y 9999)) by lia.
Qed.

Lemma last_digit_inj a b : a mod 10 = b mod 10 -> a / 10 = b / 10 -> a = b.
Proof.
  intros Hm Hd. rewrite (Z.div_mod a 10), (Z.div_mod b 10) by lia. congruence.
Qed.

Lemma two_digits_inj a b :
  0 <= a < 100 -> 0 <= b < 100 ->
  (a / 10) mod 10 = (b / 10) mod 10 -> a mod 10 = b mod 10 -> a = b.
Proof.
  intros Ha Hb H1 H0. apply last_digit_inj; [done|].
  apply last_digit_inj; [done|].
  rewrite !Z.div_div by lia. rewrite !Z.div_small; lia.
Qed.

Lemma four_digits_inj a b :
  0 <= a < 10000 -> 0 <= b < 10000 ->
  (a / 10 / 10 / 10) mod 10 = (b / 10 / 10 / 10) mod 10 ->
  (a / 10 / 10) mod 10 = (b / 10 / 10) mod 10 ->
  (a / 10) mod 10 = (b / 10) mod 10 -> a mod 10 = b mod 10 -> a = b.
Proof.
  intros Ha Hb H3 H2 H1 H0.
  repeat (apply last_digit_inj; [done|]).
  rewrite !Z.div_div by lia. rewrite !Z.div_small; lia.
Qed.

(** Within the years 0 to 9999 the rendering determines the date. *)
Lemma date_string_inj y m d y' m' d' :
  0 <= y <= 9999 -> 0 <= y' <= 9999 ->
  1 <= m <= 12 -> 1 <= m' <= 12 -> 1 <= d <= 31 -> 1 <= d' <= 31 ->
  substring 0 10 (yearString y +:+ "-" +:+ pad 2 m +:+ "-" +:+ pad 2 d) =
  substring 0 10 (yearString y' +:+ "-" +:+ pad 2 m' +:+ "-" +:+ pad 2 d') ->
  y = y' /\ m = m' /\ d = d'.
Proof.
  intros Hy Hy' Hm Hm' Hd Hd'. rewrite !yearString_four by done.
  cbn [pad String.app substring].
  intros H. injection H as H1 H2 H3 H4 H5 H6 H7 H8.
  apply digit_inj in H1, H2, H3, H4, H5, H6, H7, H8.
  split; [|split].
  - apply four_digits_inj; (done || lia).
  - apply two_digits_inj; (done || lia).
  - apply two_digits_inj; (done || lia).
Qed.

(** The days from [firstDay] to [lastDay] are those of the years 0 to
    9999. *)
Lemma civil_year_range z :
  firstDay <= z <= lastDay ->
  let '(y, m, d) := civil_from_days z in 0 <= y <= 9999.
Proof.
  unfold firstDay, lastDay. intros Hz. rewrite civil_from_days_era. cbv zeta.
  set (era := (z + 719468) / 146097).
  set (doe := z + 719468 - era * 146097).
  assert (Hdoe : 0 <= doe < 146097 /\ -1 <= era <= 24).
  { subst doe era. pose proof (Z.div_mod (z + 719468) 146097 ltac:(lia)).
    pose proof (Z.mod_pos_bound (z + 719468) 146097 ltac:(lia)). lia. }
  destruct Hdoe as [Hdoe Hera].
  pose proof (doe_ok_range doe Hdoe) as Hok. unfold doe_ok in Hok.
  destruct (civil_of_doe doe) as [[yoe m] d].
  repeat (apply andb_prop in Hok; destruct Hok as [Hok ?]).
  destruct (Z.leb_spec 146037 doe), (Z.leb_spec m 2); subst doe; lia.
Qed.

Lemma dateOfDay_inj d1 d2 :
  firstDay <= d1 <= lastDay -> firstDay <= d2 <= lastDay ->
  dateOfDay d1 = dateOfDay d2 -> d1 = d2.
Proof.
  intros H1 H2. unfold dateOfDay, isoDatePart.
  pose proof (civil_roundtrip d1) as R1. pose proof (civil_year_range d1 H1) as Y1.
  pose proof (civil_roundtrip d2) as R2. pose proof (civil_year_range d2 H2) as Y2.
  destruct (civil_from_days d1) as [[y1 m1] dd1].
  destruct (civil_from_days d2) as [[y2 m2] dd2].
  destruct R1 as (R1 & ? & ?), R2 as (R2 & ? & ?).
  intros Heq. apply date_string_inj in Heq; [|done..].
  destruct Heq as (-> & -> & ->). congruence.
Qed.

Example firstDay_date : dateOfDay firstDay = "0000-01-01"%string.
Proof. reflexivity. Qed.

Example lastDay_date : dateOfDay lastDay = "9999-12-31"%string.
Proof. reflexivity. Qed.

End DateFacts.

(** * Facts about the aggregation *)

Section AggregationFacts.
Local Open Scope float_scope.
Implicit Types (acc m : gmap Category float) (T : list Tx.t) (t : Tx.t).

Lemma orZero_quanta x : quanta (orZero x) = quanta x.
Proof.
  unfold orZero. destruct (falsyNumber x) eqn:E; [|done].
  by rewrite (falsyNumber_quanta x E).
Qed.

(** The reducer adds the amount to the running total of the category,
    which starts at 0 and starts again at 0 when it is falsy. *)
Lemma addToCategory_insert acc t :
  addToCategory acc t =
  <[Tx.category t :=
      orZero (default 0 (acc !! Tx.category t)) + Tx.amount t]> acc.
Proof.
  unfold addToCategory, falsy, orZero.
  destruct (acc !! Tx.category t) as [w|] eqn:Hc; cbn [default]; unfold id.
  - destruct (falsyNumber w) eqn:Hw.
    + rewrite lookup_insert_eq. cbn [default]. unfold id.
      by rewrite insert_insert_eq.
    + by rewrite Hc.
  - rewrite lookup_insert_eq. cbn [default]. unfold id.
    by rewrite insert_insert_eq.
Qed.

Lemma fold_lookup T acc c :
  fold_left addToCategory T acc !! c =
  match inCategory c T with
  | [] => acc !! c
  | _ :: _ => Some (runningTotal (default 0 (acc !! c)) (inCategory c T))
  end.
Proof.
  revert acc. induction T as [|t T IH]; intros acc; [done|].
  cbn [fold_left]. rewrite IH, addToCategory_insert.
  unfold inCategory. cbn [List.filter].
  case_bool_decide as Hc.
  - subst c. rewrite lookup_insert_eq. cbn [default].
    by destruct (List.filter _ T).
  - rewrite lookup_insert_ne by done. reflexivity.
Qed.

(** A category is a key of the mapping exactly when a transaction has
    it, and its value is the running total of those transactions. *)
Lemma byCategory_lookup T c :
  byCategory T !! c =
  match inCategory c T with
  | [] => None
  | _ :: _ => Some (categoryTotal (inCategory c T))
  end.
Proof. unfold byCategory. by rewrite fold_lookup, lookup_empty. Qed.

Lemma inCategory_nil_iff c T : inCategory c T = [] <-> ~ In c (map Tx.category T).
Proof.
  unfold inCategory. induction T as [|t T IH]; simpl; [tauto|].
  case_bool_decide as Hc.
  - split; [discriminate | intros H; exfalso; apply H; by left].
  - rewrite IH. split; [intros H [?|?]; [congruence | tauto] | tauto].
Qed.

Lemma byCategory_is_Some T c :
  is_Some (byCategory T !! c) <-> In c (map Tx.category T).
Proof.
  rewrite byCategory_lookup.
  destruct (inCategory c T) as [|t' T'] eqn:E.
  - apply inCategory_nil_iff in E. split; [by intros [? ?] | done].
  - split; [|by eauto]. intros _.
    destruct (List.in_dec Category_eq_dec c (map Tx.category T)) as [|Hn]; [done|].
    apply inCategory_nil_iff in Hn. congruence.
Qed.

Lemma inCategory_app c T1 T2 :
  inCategory c (T1 ++ T2) = inCategory c T1 ++ inCategory c T2.
Proof. apply List.filter_app. Qed.

Lemma runningTotal_app s T1 T2 :
  runningTotal s (T1 ++ T2) = runningTotal (runningTotal s T1) T2.
Proof. apply fold_left_app. Qed.

(** The total of a category after its last transaction [t]: the total
    before, or 0 when that is falsy, plus the amount of [t]. *)
Lemma categoryTotal_last T t :
  categoryTotal (T ++ [t]) = orZero (categoryTotal T) + Tx.amount t.
Proof. unfold categoryTotal. by rewrite runningTotal_app. Qed.

Lemma totalSpending_sumList T : totalSpending T = sumList (map Tx.amount T).
Proof.
  unfold totalSpending, sumList. generalize 0.
  induction T as [|t T IH]; intros s; [done|]. cbn. apply IH.
Qed.

(** The values of the mapping, each as its number of 2^-1074, added up
    as integers. *)
Lemma zsum_insert_fresh m c v :
  m !! c = None ->
  fold_right Z.add 0%Z (map quanta (values (<[c := v]> m))) =
  (fold_right Z.add 0%Z (map quanta (values m)) + quanta v)%Z.
Proof.
  intros Hc. unfold values.
  rewrite (zsum_Permutation _ (map quanta (map snd ((c, v) :: map_to_list m)))).
  - cbn. lia.
  - do 2 apply Permutation_map. by apply map_to_list_insert.
Qed.

Lemma zsum_insert m c v :
  fold_right Z.add 0%Z (map quanta (values (<[c := v]> m))) =
  (fold_right Z.add 0%Z (map quanta (values m))
   - quanta (default 0%float (m !! c)) + quanta v)%Z.
Proof.
  destruct (m !! c) as [w|] eqn:Hc; cbn [default]; unfold id.
  - rewrite <- insert_delete_eq.
    rewrite zsum_insert_fresh by apply lookup_delete_eq.
    rewrite <- (insert_id m c w Hc) at 2. rewrite <- insert_delete_eq.
    rewrite zsum_insert_fresh by apply lookup_delete_eq. lia.
  - rewrite zsum_insert_fresh by done. change (quanta 0) with 0%Z. lia.
Qed.

(** When no addition of the reducer rounds, the values of the mapping
    grow by the amounts of the transactions. *)
Lemma zsum_fold T : forall acc,
  groupingExact acc T = true ->
  fold_right Z.add 0%Z (map quanta (values (fold_left addToCategory T acc))) =
  (fold_right Z.add 0%Z (map quanta (values acc))
   + fold_right Z.add 0%Z (map quanta (map Tx.amount T)))%Z.
Proof.
  induction T as [|t T IH]; intros acc Hex; cbn [fold_left map fold_right].
  - lia.
  - cbn [groupingExact] in Hex. apply andb_prop in Hex as [Ha Hrest].
    apply exactAdd_spec in Ha as [_ Hq].
    rewrite (IH _ Hrest), addToCategory_insert, zsum_insert, Hq, orZero_quanta.
    lia.
Qed.

(** Without rounding, the totals of the categories, added up in any
    order, make the total of all amounts. *)
Lemma exact_sums_agree T vs :
  Permutation vs (values (byCategory T)) ->
  groupingExact ∅ T = true ->
  sumExact 0 (map Tx.amount T) = true ->
  sumExact 0 vs = true ->
  (sumList vs =? totalSpending T) = true.
Proof.
  intros Hperm Hgroup Htotal Hvs.
  destruct (sumExact_quanta vs 0 eq_refl Hvs) as [Hf1 Hq1].
  destruct (sumExact_quanta (map Tx.amount T) 0 eq_refl Htotal) as [Hf2 Hq2].
  rewrite totalSpending_sumList. apply quanta_eqb; [done | done |].
  unfold sumList. rewrite Hq1, Hq2. f_equal.
  rewrite (zsum_Permutation _ _ (Permutation_map quanta Hperm)).
  unfold byCategory. rewrite (zsum_fold T ∅ Hgroup).
  unfold values. rewrite map_to_list_empty. cbn. lia.
Qed.

Lemma byCategory_groupedBy T : groupedBy T (byCategory T).
Proof.
  split; [apply byCategory_is_Some|].
  split; [apply byCategory_lookup|].
  intros vs. apply exact_sums_agree.
Qed.

End AggregationFacts.

Section TrendFacts.
Local Open Scope float_scope.
Implicit Types (T : list Tx.t) (t : Tx.t) (date : string).

Lemma dayTotal_spending T date :
  dayTotal T date =
  totalSpending (List.filter (fun t => bool_decide (Tx.date t = date)) T).
Proof. reflexivity. Qed.

(** A day without transactions gets the amount 0. *)
Lemma dayTotal_none T date :
  (forall t, In t T -> Tx.date t <> date) -> dayTotal T date = 0.
Proof.
  intros Hnone. rewrite dayTotal_spending.
  replace (List.filter _ T) with (@nil Tx.t); [done|].
  symmetry. induction T as [|t T IH]; [done|]. simpl.
  case_bool_decide as Hd.
  - exfalso. apply (Hnone t); [by left | done].
  - apply IH. intros t' Ht'. apply Hnone. by right.
Qed.

(** A transaction dated another day does not count for [date]. *)
Lemma dayTotal_other T1 t T2 date :
  Tx.date t <> date -> dayTotal (T1 ++ t :: T2) date = dayTotal (T1 ++ T2) date.
Proof.
  intros Hd. rewrite !dayTotal_spending, !List.filter_app. cbn [List.filter].
  by rewrite bool_decide_eq_false_2.
Qed.

Lemma length_recentTrends tz today T : length (recentTrends tz today T) = 7%nat.
Proof. reflexivity. Qed.

Lemma recentTrends_dates tz today T :
  map Trend.date (recentTrends tz today T) = last7Days tz today.
Proof.
  unfold recentTrends. rewrite List.map_map. cbn [Trend.date]. apply List.map_id.
Qed.

Lemma recentTrends_amount tz today T p :
  In p (recentTrends tz today T) -> Trend.amount p = dayTotal T (Trend.date p).
Proof.
  unfold recentTrends. rewrite List.in_map_iff. by intros (d & <- & _).
Qed.

Lemma recentTrends_outside tz today T1 t T2 :
  ~ In (Tx.date t) (last7Days tz today) ->
  recentTrends tz today (T1 ++ t :: T2) = recentTrends tz today (T1 ++ T2).
Proof.
  intros Hout. unfold recentTrends. apply List.map_ext_in.
  intros d Hd. f_equal. apply dayTotal_other. congruence.
Qed.

Lemma recentTrends_nil tz today p :
  In p (recentTrends tz today []) -> Trend.amount p = 0.
Proof. intros Hp. by rewrite (recentTrends_amount _ _ _ _ Hp). Qed.
End TrendFacts.

Section WindowFacts.
Import JsDate.

Lemma In_last7Days tz today date :
  steadyOffset tz today ->
  In date (last7Days tz today) ->
  exists k, 0 <= k <= 6 /\ date = dateOfDay (dayOf today - 6 + k).
Proof.
  intros Hs. rewrite last7Days_days by done. rewrite List.in_map_iff.
  intros (k & <- & Hk%List.in_seq). exists (Z.of_nat k). split; [lia | done].
Qed.

(** In the years 0 to 9999, and with a steady offset, the seven dates of
    the window are distinct. *)
Lemma last7Days_NoDup tz today :
  steadyOffset tz today ->
  firstDay <= dayOf today - 6 -> dayOf today <= lastDay ->
  List.NoDup (last7Days tz today).
Proof.
  intros Hs Hlo Hhi. rewrite last7Days_days by done.
  apply List.NoDup_map_NoDup_ForallPairs; [|apply List.seq_NoDup].
  intros j k Hj%List.in_seq Hk%List.in_seq Heq.
  apply dateOfDay_inj in Heq; lia.
Qed.

(** The dates of the window are those of the seven times that
    [setDate] gives. *)
Lemma In_last7Days_times tz today date :
  In date (last7Days tz today) ->
  exists i, (i < 7)%nat /\ date = toISODate (minusDays tz today i).
Proof.
  unfold last7Days. rewrite <- in_rev, List.in_map_iff.
  intros (i & <- & Hi%List.in_seq). exists i. split; [lia | done].
Qed.

(** With a steady offset the days of the window are not after today. *)
Lemma steadyOffset_window tz today i :
  steadyOffset tz today -> (i < 7)%nat ->
  firstDay <= dayOf today - 6 ->
  firstDay <= dayOf (minusDays tz today i) <= dayOf today.
Proof.
  intros Hs Hi Hlo. rewrite minusDays_steady, dayOf_minus by done. lia.
Qed.

(** A future date is outside the window. *)
Lemma futureDate_outsideWindow tz today date :
  futureDate tz today date -> outsideWindow tz today date.
Proof.
  intros (day & -> & Hwin & Hday) (i & Hi & Heq)%In_last7Days_times.
  specialize (Hwin i Hi).
  unfold toISODate in Heq. apply dateOfDay_inj in Heq; lia.
Qed.
End WindowFacts.

(** * The aggregation claims *)

Section AggregationClaims.
Local Open Scope float_scope.
Implicit Types (T : list Tx.t) (t : Tx.t) (s : SummaryData).

Lemma recentTrends_computedTrend tz today T :
  computedTrend tz today T (recentTrends tz today T).
Proof.
  assert (Hzero : forall p, In p (recentTrends tz today T) ->
            (forall t, In t T -> Tx.date t <> Trend.date p) ->
            Trend.amount p = 0).
  { intros p Hp Hnone. rewrite (recentTrends_amount _ _ _ _ Hp).
    by apply dayTotal_none. }
  split; [reflexivity|]. split; [apply recentTrends_dates|].
  split; [apply recentTrends_amount|]. split; [exact Hzero|].
  intros Hs. split; [reflexivity|].
  split; [rewrite recentTrends_dates; by apply last7Days_days|].
  split; [apply recentTrends_amount | exact Hzero].
Qed.

(** With transactions, [Dashboard.js] stores the grouping of exactly
    these transactions, whatever the summary was before. *)
Lemma Dashboard_byCategory tz today T trendsData s :
  T <> [] ->
  summary_byCategory
    (Dashboard.processTransactionData tz today T trendsData s) =
  byCategory T.
Proof. by destruct T. Qed.

(** Without trend data from the API, [Dashboard.js] computes the trend
    from the transactions. *)
Lemma Dashboard_trend_computed tz today T trendsData s :
  T <> [] ->
  (forall api, trendsData <> Some (mkTrends (Some api))) ->
  summary_recentTrends
    (Dashboard.processTransactionData tz today T trendsData s) =
  recentTrends tz today T.
Proof.
  intros Hne Hno. destruct T as [|t T]; [done|].
  unfold Dashboard.processTransactionData.
  destruct trendsData as [[[api|]]|]; cbn; try reflexivity.
  by destruct (Hno api).
Qed.

(** C1, as amended.  For every collection of transactions the keys of
    the category mapping are exactly the categories that occur in the
    collection, and each category has the running total of its
    transactions in their order.  The totals of the categories, added up
    in any order, equal the total of all amounts when none of the
    additions involved rounds.  This holds of the grouping [byCategory],
    of the summary of the earlier dashboard, of the summary of
    [Dashboard.js] for a collection that is not empty, and of the summary
    of [Dashboard.js] as first computed. *)
Theorem C1_category_totals_partition tz today T trendsData s :
  groupedBy T (byCategory T) /\
  groupedBy T (summary_byCategory
                 (DashboardV0.processTransactionData tz today T s)) /\
  (T <> [] ->
   groupedBy T (summary_byCategory
                  (Dashboard.processTransactionData tz today T trendsData s))) /\
  groupedBy T (summary_byCategory
                 (Dashboard.processTransactionData tz today T trendsData
                    initialSummary)).
Proof.
  pose proof (byCategory_groupedBy T) as Hg.
  split; [exact Hg|]. split; [exact Hg|]. split.
  - intros Hne. by rewrite Dashboard_byCategory.
  - destruct T as [|t T]; exact Hg.
Qed.

(** C1 as stated fails.  The amounts 0.1, 0.2 and 0.4 in the categories
    Groceries, Transport and Groceries give the totals 0.5 and 0.2, whose
    sum in either order is 0.7, while the total of the three amounts is
    0.7000000000000001.  And after [Dashboard.js] has processed a
    collection, the empty collection leaves the mapping of that
    collection in the summary. *)
Lemma C1_rounding_counterexample :
  let T := [Sample.tea; Sample.bus; Sample.salt] in
  let stale :=
    Dashboard.processTransactionData JsDate.utc Sample.now [Sample.rice] None
      initialSummary in
  ~ partitions T (byCategory T) /\
  (forall vs, Permutation vs (values (byCategory T)) ->
     (sumList vs =? totalSpending T) = false) /\
  ~ partitions []
      (summary_byCategory
         (Dashboard.processTransactionData JsDate.utc Sample.now [] None stale)).
Proof.
  cbv zeta. split; [|split].
  - intros [Hsum _]. vm_compute in Hsum. discriminate Hsum.
  - intros vs Hperm.
    assert (Hv : values (byCategory [Sample.tea; Sample.bus; Sample.salt]) =
                 [0x1.999999999999ap-3; 0.5]) by (vm_compute; reflexivity).
    rewrite Hv in Hperm. apply Permutation_sym in Hperm.
    apply Permutation_length_2_inv in Hperm as [-> | ->];
      vm_compute; reflexivity.
  - intros [_ Hkeys]. destruct (proj1 (Hkeys Groceries)) as [].
    vm_compute. by eauto.
Qed.

(** C2, as amended.  When the trend is computed from the transactions,
    as the earlier dashboard does for every collection and [Dashboard.js]
    for every collection that is not empty when the API gave no trend
    data, it has exactly seven entries, for the dates of [last7Days], each
    with the total of the transactions of its date and 0 for a date
    without transactions; when the local offset from UTC is the same now
    and on the six days before, these are the seven consecutive days that
    end today, in chronological order. *)
Theorem C2_seven_day_trend tz today T trendsData s :
  computedTrend tz today T
    (summary_recentTrends (DashboardV0.processTransactionData tz today T s)) /\
  (T <> [] ->
   (forall api, trendsData <> Some (mkTrends (Some api))) ->
   computedTrend tz today T
     (summary_recentTrends
        (Dashboard.processTransactionData tz today T trendsData s))).
Proof.
  split; [apply recentTrends_computedTrend|].
  intros Hne Hno. rewrite Dashboard_trend_computed by done.
  apply recentTrends_computedTrend.
Qed.

(** C2 as stated fails in three ways.  For the empty collection
    [Dashboard.js] returns before it computes a trend, and the summary
    keeps its empty list.  With trend data from the API the summary takes
    that list as it is, here one entry.  And in New York, on the evening
    after the clocks went back, the dates computed skip 2026-11-01, in
    both versions of the dashboard. *)
Lemma C2_trend_counterexample :
  ~ sevenDayTrend Sample.now []
      (summary_recentTrends
         (Dashboard.processTransactionData JsDate.utc Sample.now [] None
            initialSummary)) /\
  ~ sevenDayTrend Sample.now [Sample.rice; Sample.train]
      (summary_recentTrends
         (Dashboard.processTransactionData JsDate.utc Sample.now
            [Sample.rice; Sample.train] (Some Sample.apiTrend)
            initialSummary)) /\
  ~ sevenDayTrend Sample.afterFallBack [Sample.rice]
      (summary_recentTrends
         (DashboardV0.processTransactionData JsDate.newYork
            Sample.afterFallBack [Sample.rice] initialSummary)) /\
  ~ sevenDayTrend Sample.afterFallBack [Sample.rice]
      (summary_recentTrends
         (Dashboard.processTransactionData JsDate.newYork
            Sample.afterFallBack [Sample.rice] None initialSummary)).
Proof.
  split; [|split; [|split]].
  - intros [Hlen _]. discriminate Hlen.
  - intros [Hlen _]. discriminate Hlen.
  - intros (_ & Hdates & _). vm_compute in Hdates. discriminate Hdates.
  - intros (_ & Hdates & _). vm_compute in Hdates. discriminate Hdates.
Qed.

(** C3, as amended.  For the empty collection the earlier dashboard
    yields an empty category mapping and a trend of seven entries, all
    with amount 0; [Dashboard.js] returns early and leaves the summary
    as it is, which at first is the empty mapping and the empty trend
    list. *)
Theorem C3_empty_collection tz today trendsData s :
  (let r := DashboardV0.processTransactionData tz today [] s in
   summary_byCategory r = ∅ /\
   length (summary_recentTrends r) = 7%nat /\
   forall p, In p (summary_recentTrends r) -> Trend.amount p = 0) /\
  Dashboard.processTransactionData tz today [] trendsData s = s /\
  summary_byCategory initialSummary = ∅ /\
  summary_recentTrends initialSummary = [].
Proof.
  cbv zeta. repeat split.
  apply recentTrends_nil.
Qed.

(** C3 as stated fails on [Dashboard.js]: the trend list of the summary
    has no entry after the empty collection was processed. *)
Lemma C3_empty_trend_counterexample :
  let r := Dashboard.processTransactionData JsDate.utc Sample.now [] None
             initialSummary in
  ~ (summary_byCategory r = ∅ /\
     length (summary_recentTrends r) = 7%nat /\
     Forall (fun p => Trend.amount p = 0) (summary_recentTrends r)).
Proof. cbv zeta. intros (_ & Hlen & _). discriminate Hlen. Qed.

(** C8, as amended.  A transaction whose date lies in the future, or is
    otherwise none of the seven dates of the window, counts in the total
    of its category: the total is the running total of the transactions of
    the category with this one at its place, and when it is the last of
    its category, the total before plus its amount.  When the trend is
    computed from the transactions, as the earlier dashboard always does
    and [Dashboard.js] when the API gave no trend data, the trend is the
    one of the other transactions: no entry counts the transaction. *)
Theorem C8_outside_window tz today t T1 T2 trendsData s :
  futureDate tz today (Tx.date t) \/ outsideWindow tz today (Tx.date t) ->
  let T := T1 ++ t :: T2 in
  let c := Tx.category t in
  let r0 := DashboardV0.processTransactionData tz today T s in
  let r1 := Dashboard.processTransactionData tz today T trendsData s in
  let included (m : gmap Category float) :=
    m !! c = Some (categoryTotal (inCategory c T1 ++ t :: inCategory c T2)) /\
    (inCategory c T2 = [] ->
     m !! c = Some (orZero (categoryTotal (inCategory c T1)) + Tx.amount t)) in
  included (summary_byCategory r0) /\
  included (summary_byCategory r1) /\
  summary_recentTrends r0 = recentTrends tz today (T1 ++ T2) /\
  excludedFromTrend (T1 ++ T2) (summary_recentTrends r0) /\
  ((forall api, trendsData <> Some (mkTrends (Some api))) ->
   summary_recentTrends r1 = recentTrends tz today (T1 ++ T2) /\
   excludedFromTrend (T1 ++ T2) (summary_recentTrends r1)).
Proof.
  intros Hout T c r0 r1 included.
  assert (Hout' : ~ In (Tx.date t) (last7Days tz today)).
  { destruct Hout as [Hf|Ho]; [by apply futureDate_outsideWindow | done]. }
  clear Hout.
  assert (HT : T <> []) by (subst T; by destruct T1).
  assert (Hin : inCategory c T = inCategory c T1 ++ t :: inCategory c T2).
  { subst T c. rewrite inCategory_app. unfold inCategory at 2.
    cbn [List.filter]. by rewrite bool_decide_eq_true_2. }
  assert (Hcat : included (byCategory T)).
  { subst included. cbv beta. rewrite byCategory_lookup, Hin. split.
    - by destruct (inCategory c T1).
    - intros ->. rewrite categoryTotal_last. by destruct (inCategory c T1). }
  assert (Htr : recentTrends tz today T = recentTrends tz today (T1 ++ T2)).
  { by apply recentTrends_outside. }
  assert (Hex : excludedFromTrend (T1 ++ T2) (recentTrends tz today T)).
  { intros p Hp. rewrite Htr in Hp. by apply (recentTrends_amount tz today). }
  split; [exact Hcat|]. split.
  { subst r1. by rewrite Dashboard_byCategory. }
  split; [exact Htr|]. split; [exact Hex|].
  intros Hno. subst r1. rewrite Dashboard_trend_computed by done. done.
Qed.

(** C8 as stated fails when the API gave trend data: [Dashboard.js]
    stores that list as it is, here with an entry for the future date of
    the transaction that carries its amount. *)
Lemma C8_api_trend_counterexample :
  futureDate JsDate.utc Sample.now (Tx.date Sample.train) /\
  ~ excludedFromTrend [Sample.rice]
      (summary_recentTrends
         (Dashboard.processTransactionData JsDate.utc Sample.now
            [Sample.rice; Sample.train] (Some Sample.apiTrend)
            initialSummary)).
Proof.
  split.
  - exists 20759%Z. split; [reflexivity|]. split.
    + intros i Hi.
      do 7 (destruct i as [|i]; [vm_compute; intuition discriminate|]). lia.
    + vm_compute. intuition discriminate.
  - intros Hex. specialize (Hex _ (or_introl eq_refl)).
    apply (f_equal (fun x => x =? 0)) in Hex. vm_compute in Hex.
    discriminate Hex.
Qed.




(** C10. The average on the dashboard is the total spending divided by
    the larger of the number of transactions and 1; the divisor is never
    zero (nor [NaN]), and the average of the empty list is 0. *)
Theorem C10_average_guarded (transactions : list Tx.t) :
  averageTransaction transactions =
    totalSpending transactions
    / numberOfNat (Nat.max (length transactions) 1) /\
  falsyNumber (numberOfNat (lengthOr1 transactions)) = false /\
  numberOfNat (lengthOr1 transactions) <> 0 /\
  lengthOr1 transactions <> 0%nat /\
  averageTransaction [] = 0.
Proof.
  assert (Hmax : lengthOr1 transactions = Nat.max (length transactions) 1).
  { unfold lengthOr1. destruct (length transactions); lia. }
  assert (Hn : lengthOr1 transactions <> 0%nat) by (rewrite Hmax; lia).
  pose proof (numberOfNat_truthy _ Hn) as Ht.
  split; [unfold averageTransaction; by rewrite Hmax|].
  split; [exact Ht|]. split; [|split; [exact Hn | reflexivity]].
  intros H0. rewrite H0 in Ht. discriminate Ht.
Qed.
End AggregationClaims.

(** * Retry *)

Section FetchWithRetryFacts.
Context {Response Error : Type}.
Variable axios_get : nat -> Settled Response Error.

Lemma failedRounds_S from count :
  failedRounds from (S count) =
  Get from :: SetTimeout (1000 * Z.of_nat (S from))
    :: failedRounds (S from) count.
Proof. reflexivity. Qed.

(** The first request that succeeds ends the loop with its response. *)
Lemma retryLoop_success k : forall fuel maxRetries retries response,
  (retries + k < maxRetries)%nat -> (k < fuel)%nat ->
  (forall j, (j < k)%nat -> exists e, axios_get (retries + j) = Rejected e) ->
  axios_get (retries + k) = Resolved response ->
  retryLoop axios_get fuel maxRetries retries =
  Some (failedRounds retries k ++ [Get (retries + k)], Return response).
Proof.
  induction k as [|k IH]; intros fuel maxRetries retries response Hlt Hfuel Hfail Hok.
  - destruct fuel as [|fuel]; [lia|]. cbn [retryLoop].
    rewrite (proj2 (Nat.ltb_lt _ _)) by lia.
    rewrite Nat.add_0_r in Hok. rewrite Hok. cbn. by rewrite Nat.add_0_r.
  - destruct fuel as [|fuel]; [lia|]. cbn [retryLoop].
    rewrite (proj2 (Nat.ltb_lt _ _)) by lia.
    destruct (Hfail 0%nat) as [e He]; [lia|].
    rewrite Nat.add_0_r in He. rewrite He.
    rewrite (proj2 (Nat.eqb_neq _ _)) by lia.
    rewrite (IH fuel maxRetries (S retries) response).
    + rewrite failedRounds_S. cbn [app].
      by replace (S retries + k)%nat with (retries + S k)%nat by lia.
    + lia.
    + lia.
    + intros j Hj. destruct (Hfail (S j)) as [e' He']; [lia|].
      exists e'. by replace (S retries + j)%nat with (retries + S j)%nat by lia.
    + by replace (S retries + k)%nat with (retries + S k)%nat by lia.
Qed.

(** When every request fails, the error of the last one is thrown. *)
Lemma retryLoop_failure k : forall fuel maxRetries retries error,
  (retries + S k = maxRetries)%nat -> (k < fuel)%nat ->
  (forall j, (j < k)%nat -> exists e, axios_get (retries + j) = Rejected e) ->
  axios_get (retries + k) = Rejected error ->
  retryLoop axios_get fuel maxRetries retries =
  Some (failedRounds retries k ++ [Get (retries + k)], Throw error).
Proof.
  induction k as [|k IH]; intros fuel maxRetries retries error Hlt Hfuel Hfail Herr.
  - destruct fuel as [|fuel]; [lia|]. cbn [retryLoop].
    rewrite (proj2 (Nat.ltb_lt _ _)) by lia.
    rewrite Nat.add_0_r in Herr. rewrite Herr.
    rewrite (proj2 (Nat.eqb_eq _ _)) by lia.
    cbn. by rewrite Nat.add_0_r.
  - destruct fuel as [|fuel]; [lia|]. cbn [retryLoop].
    rewrite (proj2 (Nat.ltb_lt _ _)) by lia.
    destruct (Hfail 0%nat) as [e He]; [lia|].
    rewrite Nat.add_0_r in He. rewrite He.
    rewrite (proj2 (Nat.eqb_neq _ _)) by lia.
    rewrite (IH fuel maxRetries (S retries) error).
    + rewrite failedRounds_S. cbn [app].
      by replace (S retries + k)%nat with (retries + S k)%nat by lia.
    + lia.
    + lia.
    + intros j Hj. destruct (Hfail (S j)) as [e' He']; [lia|].
      exists e'. by replace (S retries + j)%nat with (retries + S j)%nat by lia.
    + by replace (S retries + k)%nat with (retries + S k)%nat by lia.
Qed.

(** The loop always ends: the fuel [fetchWithRetryN] gives is enough. *)
Lemma retryLoop_total fuel : forall maxRetries retries,
  (maxRetries - retries < fuel)%nat ->
  is_Some (retryLoop axios_get fuel maxRetries retries).
Proof.
  induction fuel as [|fuel IH]; intros maxRetries retries Hfuel; [lia|].
  cbn [retryLoop]. destruct (Nat.ltb_spec retries maxRetries); [|by eauto].
  destruct (axios_get retries); [by eauto|].
  destruct (Nat.eqb_spec (S retries) maxRetries); [by eauto|].
  destruct (IH maxRetries (S retries)) as [[log c] ->]; [lia | by eauto].
Qed.

Lemma fetchWithRetryN_total maxRetries :
  is_Some (fetchWithRetryN axios_get maxRetries).
Proof. apply retryLoop_total. lia. Qed.

(** C5. [fetchWithRetry] makes at most three requests.  The response of
    the first request that succeeds is returned; after the first failure
    it waits 1000 ms and after the second 2000 ms before the next
    request; when the third request fails too, its error is thrown
    without a further wait. *)
Theorem C5_fetchWithRetry_policy :
  match axios_get 0, axios_get 1, axios_get 2 with
  | Resolved r, _, _ =>
      fetchWithRetry axios_get = Some ([Get 0], Return r)
  | Rejected _, Resolved r, _ =>
      fetchWithRetry axios_get =
      Some ([Get 0; SetTimeout 1000; Get 1], Return r)
  | Rejected _, Rejected _, Resolved r =>
      fetchWithRetry axios_get =
      Some ([Get 0; SetTimeout 1000; Get 1; SetTimeout 2000; Get 2], Return r)
  | Rejected _, Rejected _, Rejected e =>
      fetchWithRetry axios_get =
      Some ([Get 0; SetTimeout 1000; Get 1; SetTimeout 2000; Get 2], Throw e)
  end /\
  (forall log c, fetchWithRetry axios_get = Some (log, c) ->
     (1 <= attempts log <= 3)%nat /\ c <> ReturnUndefined).
Proof.
  unfold fetchWithRetry, fetchWithRetryN. cbn [retryLoop Nat.ltb Nat.leb Nat.eqb].
  destruct (axios_get 0) as [r0|e0], (axios_get 1) as [r1|e1],
    (axios_get 2) as [r2|e2]; cbn.
  all: split; [reflexivity|].
  all: intros log c [= <- <-]; cbn; split; [lia | discriminate].
Qed.
End FetchWithRetryFacts.

(** * Profile form *)

Section UserProfileFacts.
Import UserProfile.
Context {Store : Type}.
Variable axios_post : Payload -> Store -> Store * option string.

Lemma validate_rejects fd :
  (exists a, age fd = Some a /\ (a < 18 \/ 100 < a)) \/
  (exists d, dependents fd = Some d /\ d < 0) \/
  age fd = None \/
  occupation fd = EmptyString ->
  is_Some (validate fd).
Proof.
  unfold validate, falsyNum, falsyString, toNumber.
  intros [(a & -> & Ha) | [(d & -> & Hd) | [-> | ->]]]; cbn.
  - destruct (Z.eqb_spec a 0); cbn; [by eauto|].
    destruct (occupation fd); cbn; [by eauto|].
    destruct (Z.ltb_spec a 18); cbn; [by eauto|].
    destruct (Z.gtb_spec a 100); cbn; [by eauto | lia].
  - destruct (_ || _); [by eauto|].
    destruct (_ || _); [by eauto|].
    destruct (Z.ltb_spec d 0); [by eauto | lia].
  - by eauto.
  - rewrite orb_true_r. by eauto.
Qed.

Lemma handleSubmit_invalid userId st store msg :
  validate (formData st) = Some msg ->
  handleSubmit axios_post userId st store =
  (mkState (formData st) false (Some (messageOr msg)) (success st), store).
Proof. intros Hv. unfold handleSubmit. by rewrite Hv. Qed.

(** C6. A submission whose age is outside 18..100 or missing, whose
    number of dependents is negative, or whose occupation is missing,
    ends with a validation error: no request is sent, so the profile
    store is unchanged, the error is shown, and success is not set.
    For age 15 the error is the one about the age range. *)
Theorem C6_invalid_profile_rejected userId st store :
  (exists a, age (formData st) = Some a /\ (a < 18 \/ 100 < a)) \/
  (exists d, dependents (formData st) = Some d /\ d < 0) \/
  age (formData st) = None \/
  occupation (formData st) = EmptyString ->
  let '(st', store') := handleSubmit axios_post userId st store in
  store' = store /\
  is_Some (error st') /\
  error st' = validate (formData st) /\
  success st' = success st /\
  formData st' = formData st /\
  (age (formData st) = Some 15 ->
   occupation (formData st) <> EmptyString ->
   error st' = Some "Age must be between 18 and 100"%string).
Proof.
  intros Hbad. destruct (validate_rejects _ Hbad) as [msg Hmsg].
  rewrite (handleSubmit_invalid _ _ _ _ Hmsg).
  assert (Hm : messageOr msg = msg).
  { revert Hmsg. unfold validate.
    repeat (destruct (_ || _) || destruct (_ <? _)); intros [= <-]; done. }
  rewrite Hm. cbn. repeat split; [by eauto | done |].
  intros H15 Hocc. rewrite <- Hmsg. unfold validate. rewrite H15.
  by destruct (occupation (formData st)).
Qed.
End UserProfileFacts.

(** * Quick entry *)

Section TrimFacts.
Import JsString.

Lemma trimStart_nil_iff (s : list N) :
  trimStart s = [] <-> forallb isWhiteSpace s = true.
Proof.
  induction s as [|u s IH]; [done|]. cbn [trimStart forallb].
  destruct (isWhiteSpace u); [exact IH | done].
Qed.

(** What [trimStart] leaves starts with a character that is not white
    space. *)
Lemma trimStart_head (s : list N) u s' :
  trimStart s = u :: s' -> isWhiteSpace u = false.
Proof.
  induction s as [|v s IH]; [done|]. cbn [trimStart].
  destruct (isWhiteSpace v) eqn:Hv; [exact IH|].
  intros Heq. injection Heq as <- <-. exact Hv.
Qed.

(** [trim] leaves the empty string exactly of the strings that are
    empty or made of white space only. *)
Lemma falsy_trim (s : list N) : falsy (trim s) = forallb isWhiteSpace s.
Proof.
  unfold trim, trimEnd.
  destruct (forallb isWhiteSpace s) eqn:Hs.
  - apply trimStart_nil_iff in Hs. by rewrite Hs.
  - destruct (trimStart s) as [|u s'] eqn:Hst.
    { apply trimStart_nil_iff in Hst. congruence. }
    pose proof (trimStart_head _ _ _ Hst) as Hu.
    destruct (trimStart (rev (u :: s'))) as [|v r] eqn:Hr.
    + apply trimStart_nil_iff in Hr. rewrite forallb_forall in Hr.
      rewrite (Hr u) in Hu; [done|]. rewrite <- in_rev. by left.
    + destruct (rev (v :: r)) eqn:E; [|done].
      apply (f_equal (@length N)) in E. rewrite length_rev in E. done.
Qed.

(** White space that is not ASCII counts: a no-break space alone is
    blank. *)
Example trim_no_break_space : trim [160%N] = [].
Proof. reflexivity. Qed.

Example trim_inner : trim (ofAscii "  Samosa 30rs  ") = ofAscii "Samosa 30rs".
Proof. reflexivity. Qed.
End TrimFacts.

Section QuickEntryFacts.
Import QuickEntryParser.
Variable keywords : list (JsString.t * Category).

Lemma splitAtNumeric_none toks :
  (forall tok, In tok toks -> isNumeric tok = false) ->
  splitAtNumeric toks = None.
Proof.
  induction toks as [|tok toks IH]; intros Hnone; [done|].
  cbn [splitAtNumeric]. rewrite (Hnone tok) by (by left).
  rewrite IH; [done|]. intros tok' Hin. apply Hnone. by right.
Qed.

Lemma lastKeyword_from toks found :
  (forall tok, In tok toks -> lookupKeyword keywords tok = None) ->
  fold_left (fun found tok =>
               match lookupKeyword keywords tok with
               | Some c => Some c
               | None => found
               end) toks found = found.
Proof.
  revert found. induction toks as [|tok toks IH]; intros found Hnone; [done|].
  cbn [fold_left]. rewrite (Hnone tok) by (by left).
  apply IH. intros tok' Hin. apply Hnone. by right.
Qed.

Lemma lastKeyword_none toks :
  (forall tok, In tok toks -> lookupKeyword keywords tok = None) ->
  lastKeyword keywords toks = None.
Proof. apply lastKeyword_from. Qed.

(** Blank text has no token. *)
Lemma tokensFrom_blank s :
  forallb isSpace s = true -> tokensFrom [] s = [].
Proof.
  induction s as [|c s IH]; [done|]. cbn [forallb tokensFrom].
  intros [Hc Hs]%andb_prop. rewrite Hc. by apply IH.
Qed.

Lemma tokens_blank text : isBlank text = true -> tokens text = [].
Proof. apply tokensFrom_blank. Qed.

Lemma parse_no_number text :
  (forall tok, In tok (tokens text) -> isNumeric tok = false) ->
  parse keywords text = ParseError.
Proof.
  intros Hnone. unfold parse. destruct (isBlank text); [done|].
  by rewrite splitAtNumeric_none.
Qed.

Lemma parse_no_keyword text :
  (forall tok, In tok (tokens text) -> lookupKeyword keywords tok = None) ->
  parse keywords text = ParseError.
Proof.
  intros Hnone. unfold parse. destruct (isBlank text); [done|].
  rewrite lastKeyword_none by done.
  by destruct (splitAtNumeric _) as [[? ?]|].
Qed.

Lemma parse_blank text : isBlank text = true -> parse keywords text = ParseError.
Proof. intros Hb. unfold parse. by rewrite Hb. Qed.

(** The form drops the texts that the parser calls blank. *)
Lemma falsy_trim_isBlank text :
  JsString.falsy (JsString.trim text) = isBlank text.
Proof. apply falsy_trim. Qed.

Import TransactionForm.

(** Whatever the service is, a rejected request leaves the form fields
    as they are and sets the error message. *)
Lemma parseTransactionText_rejected parse_transaction st :
  JsString.falsy (JsString.trim (quickInput st)) = false ->
  parse_transaction (quickInput st) = ParseError ->
  parseTransactionText parse_transaction st =
  mkState (formData st) (Some parseFailedMessage) (quickInput st).
Proof.
  intros Hb Hp. unfold parseTransactionText. by rewrite Hb, Hp.
Qed.

(** Blank input is dropped before any request is made. *)
Lemma parseTransactionText_blank parse_transaction st :
  JsString.falsy (JsString.trim (quickInput st)) = true ->
  parseTransactionText parse_transaction st = st.
Proof. intros Hb. unfold parseTransactionText. by rewrite Hb. Qed.

(** C7. The parser fails with a ParseError on a text without a numeric
    token, on a text without a recognized category keyword, and on an
    empty or blank text.  The form does not treat the failure as fatal:
    [parseTransactionText] returns with the fields of the manual form
    and the quick input as they were, and with the error message set
    when the request was made and rejected; input that [trim] leaves
    empty is dropped before any request, and the state stays as it
    is. *)
Theorem C7_quick_entry_failure text st :
  (forall tok, In tok (tokens text) -> isNumeric tok = false) \/
  (forall tok, In tok (tokens text) -> lookupKeyword keywords tok = None) \/
  isBlank text = true ->
  quickInput st = text ->
  parse keywords text = ParseError /\
  let st' := parseTransactionText (parse keywords) st in
  formData st' = formData st /\
  quickInput st' = quickInput st /\
  error st' =
    (if JsString.falsy (JsString.trim text) then error st
     else Some parseFailedMessage) /\
  (JsString.falsy (JsString.trim text) = true -> st' = st).
Proof.
  intros Hbad Hq.
  assert (Hp : parse keywords text = ParseError).
  { destruct Hbad as [H | [H | H]];
      [by apply parse_no_number | by apply parse_no_keyword | by apply parse_blank]. }
  split; [exact Hp|]. cbv zeta. subst text.
  destruct (JsString.falsy (JsString.trim (quickInput st))) eqn:Hb.
  - by rewrite parseTransactionText_blank.
  - by rewrite parseTransactionText_rejected.
Qed.
End QuickEntryFacts.

(** * Prediction engine *)

Section PredictionFacts.
Import PredictionEngine.
Local Open Scope Qc_scope.
Variable rates : gmap Category Qc.

(** The percentage never faults. *)
Lemma percentage_guarded savings expense :
  percentage savings expense = Some (guarded savings expense).
Proof.
  unfold percentage, guarded, checked_div.
  by destruct (bool_decide (expense = 0)).
Qed.

Lemma predictCategory_total c expense :
  predictCategory rates c expense =
  Some (mkPrediction expense (expense * rateOf rates c)
          (guarded (expense * rateOf rates c) expense)).
Proof. unfold predictCategory. by rewrite percentage_guarded. Qed.

Lemma predictAll_total aggregate :
  exists preds, predictAll rates aggregate = Some preds /\
    forall c, preds !! c = aggregate !! c ≫= predictCategory rates c.
Proof.
  unfold predictAll.
  apply (map_fold_weak_ind (fun r m => exists preds, r = Some preds /\
           forall c, preds !! c = m !! c ≫= predictCategory rates c)).
  - exists ∅. split; [done|]. intros c. by rewrite !lookup_empty.
  - intros c e m r Hfresh (preds & -> & Hpreds). cbn.
    rewrite predictCategory_total. cbn. eexists; split; [done|].
    intros c'. destruct (decide (c = c')) as [<-|Hne].
    + rewrite !lookup_insert_eq. cbn. by rewrite predictCategory_total.
    + rewrite !lookup_insert_ne by done. apply Hpreds.
Qed.

Lemma rateOf_bounds c :
  (forall c r, rates !! c = Some r -> 0 <= r /\ r <= 1) ->
  0 <= rateOf rates c /\ rateOf rates c <= 1.
Proof.
  intros Hr. unfold rateOf. destruct (rates !! c) as [r|] eqn:E; cbn.
  - by apply (Hr c).
  - split; by vm_compute.
Qed.

Lemma savings_bounds (e r : Qc) :
  0 <= e -> 0 <= r -> r <= 1 -> 0 <= e * r /\ e * r <= e.
Proof.
  intros He Hr0 Hr1. split.
  - by apply Qcmult_nonneg_nonneg.
  - rewrite <- (Qcmult_1_r e) at 2. by apply Qcmult_le_mono_nonneg_l.
Qed.

Lemma sumOf_insert {A} (f : A -> Qc) (m : gmap Category A) c x :
  m !! c = None -> sumOf f (<[c := x]> m) = sumOf f m + f x.
Proof.
  intros Hc. unfold sumOf. rewrite map_fold_insert_L; [done | | done].
  intros; ring.
Qed.

(** Sums of savings stay between 0 and the sum of expenses. *)
Lemma totals_bounds (preds : gmap Category CategoryPrediction) :
  (forall c p, preds !! c = Some p ->
     0 <= potential_savings p /\ potential_savings p <= actual_expense p) ->
  0 <= sumOf potential_savings preds /\
  sumOf potential_savings preds <= sumOf actual_expense preds.
Proof.
  induction preds as [|c p m Hfresh IH] using map_ind; intros Hall.
  - unfold sumOf. rewrite !map_fold_empty. split; apply Qcle_refl.
  - rewrite !sumOf_insert by done.
    destruct (Hall c p) as [Hp0 Hp1]; [apply lookup_insert_eq|].
    destruct IH as [IH0 IH1].
    { intros c' p' Hc'. apply (Hall c'). rewrite lookup_insert_ne; [done|].
      intros <-. congruence. }
    split.
    + replace 0 with (0 + 0) by ring. by apply Qcplus_le_compat.
    + by apply Qcplus_le_compat.
Qed.

(** C4. The prediction never faults on a division.  For a category with
    expense e >= 0 the potential savings are between 0 and e, and the
    savings percentage is 100 times the savings divided by e, and 0
    when e = 0; the totals follow the same guarded rule, and the total
    savings are between 0 and the total expenses when no expense is
    negative. *)
Theorem C4_savings_bounds aggregate :
  (forall c r, rates !! c = Some r -> 0 <= r /\ r <= 1) ->
  exists result,
    predict rates aggregate = Some result /\
    (forall c p, predictions result !! c = Some p ->
       aggregate !! c = Some (actual_expense p) /\
       (0 <= actual_expense p ->
        0 <= potential_savings p /\ potential_savings p <= actual_expense p) /\
       (actual_expense p <> 0 ->
        savings_percentage p =
        hundred * potential_savings p / actual_expense p) /\
       (actual_expense p = 0 -> savings_percentage p = 0)) /\
    (let t := totals result in
     ((forall c e, aggregate !! c = Some e -> 0 <= e) ->
      0 <= total_potential_savings t /\
      total_potential_savings t <= total_actual_expenses t) /\
     (total_actual_expenses t <> 0 ->
      total_savings_percentage t =
      hundred * total_potential_savings t / total_actual_expenses t) /\
     (total_actual_expenses t = 0 -> total_savings_percentage t = 0)).
Proof.
  intros Hrates.
  destruct (predictAll_total aggregate) as (preds & Hall & Hpreds).
  unfold predict. rewrite Hall. cbn. rewrite percentage_guarded. cbn.
  eexists; split; [reflexivity|]. cbn.
  assert (Hcat : forall c p, preds !! c = Some p ->
            aggregate !! c = Some (actual_expense p) /\
            potential_savings p = actual_expense p * rateOf rates c /\
            savings_percentage p =
              guarded (potential_savings p) (actual_expense p)).
  { intros c p Hp. rewrite Hpreds in Hp.
    destruct (aggregate !! c) as [e|]; [|done]. cbn in Hp.
    rewrite predictCategory_total in Hp. by injection Hp as <-. }
  split; [|split; [|split]].
  - intros c p Hp. destruct (Hcat c p Hp) as (Hagg & Hsav & Hpct).
    split; [done|]. split; [|split].
    + intros He. rewrite Hsav.
      destruct (rateOf_bounds c Hrates). by apply savings_bounds.
    + intros Hne. rewrite Hpct. unfold guarded.
      by rewrite bool_decide_eq_false_2.
    + intros He. rewrite Hpct. unfold guarded.
      by rewrite bool_decide_eq_true_2.
  - intros Hpos. apply totals_bounds. intros c p Hp.
    destruct (Hcat c p Hp) as (Hagg & Hsav & _). rewrite Hsav.
    destruct (rateOf_bounds c Hrates).
    apply savings_bounds; [by apply (Hpos c) | done | done].
  - intros Hne. unfold guarded. by rewrite bool_decide_eq_false_2.
  - intros He. unfold guarded. by rewrite bool_decide_eq_true_2.
Qed.
End PredictionFacts.

(** * The claims at concrete inputs, and the scenarios of the specification *)

Section Scenarios.
Local Open Scope float_scope.

Lemma C1_category_totals_partition_witness :
  (sumValues
     (summary_byCategory
        (Dashboard.processTransactionData JsDate.utc Sample.now
           [Sample.rice; Sample.train; Sample.milk] None initialSummary))
   =? totalSpending [Sample.rice; Sample.train; Sample.milk]) = true.
Proof.
  destruct (C1_category_totals_partition JsDate.utc Sample.now
              [Sample.rice; Sample.train; Sample.milk] None initialSummary)
    as (_ & _ & H & _).
  destruct H as (_ & _ & Hsum); [discriminate|].
  apply Hsum; [apply Permutation_refl | reflexivity | reflexivity | reflexivity].
Defined.

Lemma C2_seven_day_trend_witness :
  sevenDayTrend Sample.now [Sample.rice]
    (summary_recentTrends
       (Dashboard.processTransactionData JsDate.kolkata Sample.now
          [Sample.rice] None initialSummary)).
Proof.
  destruct (C2_seven_day_trend JsDate.kolkata Sample.now [Sample.rice] None
              initialSummary) as [_ H].
  destruct H as (_ & _ & _ & _ & Hs); [discriminate | discriminate |].
  apply Hs. exact (steadyOffset_constant 19800000 Sample.now).
Defined.

Lemma C8_outside_window_witness :
  futureDate JsDate.newYork Sample.afterFallBack "2026-11-03" /\
  summary_recentTrends
    (Dashboard.processTransactionData JsDate.newYork Sample.afterFallBack
       ([Sample.rice] ++ Sample.later :: []) None initialSummary) =
  recentTrends JsDate.newYork Sample.afterFallBack ([Sample.rice] ++ []).
Proof.
  assert (Hf : futureDate JsDate.newYork Sample.afterFallBack "2026-11-03").
  { exists 20760%Z. split; [reflexivity|]. split.
    - intros i Hi.
      do 7 (destruct i as [|i]; [vm_compute; intuition discriminate|]). lia.
    - vm_compute. intuition discriminate. }
  split; [exact Hf|].
  destruct (C8_outside_window JsDate.newYork Sample.afterFallBack Sample.later
              [Sample.rice] [] None initialSummary (or_introl Hf))
    as (_ & _ & _ & _ & H).
  destruct H as [Htrend _]; [discriminate | exact Htrend].
Defined.


Lemma C6_invalid_profile_rejected_witness :
  let st := UserProfile.mkState
              (UserProfile.mkForm (Some 15%Z) (Some 0%Z) "Student")
              false None false in
  let '(st', store') :=
    UserProfile.handleSubmit ProfileStore.upsert "user123" st ∅ in
  store' = ∅ /\
  is_Some (UserProfile.error st') /\
  UserProfile.error st' = UserProfile.validate (UserProfile.formData st) /\
  UserProfile.success st' = UserProfile.success st /\
  UserProfile.formData st' = UserProfile.formData st /\
  (UserProfile.age (UserProfile.formData st) = Some 15%Z ->
   UserProfile.occupation (UserProfile.formData st) <> EmptyString ->
   UserProfile.error st' = Some "Age must be between 18 and 100"%string).
Proof.
  apply (C6_invalid_profile_rejected ProfileStore.upsert "user123"
           (UserProfile.mkState
              (UserProfile.mkForm (Some 15%Z) (Some 0%Z) "Student")
              false None false) ∅).
  left. exists 15%Z. split; [reflexivity | lia].
Defined.

Lemma C7_quick_entry_failure_witness :
  let st := TransactionForm.mkState
              (TransactionForm.mkForm None None [] "2026-11-01")
              None (JsString.ofAscii "Samosa food") in
  QuickEntryParser.parse [(JsString.ofAscii "food", Eating_Out)]
    (JsString.ofAscii "Samosa food") = QuickEntryParser.ParseError /\
  TransactionForm.formData
    (TransactionForm.parseTransactionText
       (QuickEntryParser.parse [(JsString.ofAscii "food", Eating_Out)]) st) =
  TransactionForm.formData st /\
  TransactionForm.error
    (TransactionForm.parseTransactionText
       (QuickEntryParser.parse [(JsString.ofAscii "food", Eating_Out)]) st) =
  Some TransactionForm.parseFailedMessage.
Proof.
  cbv zeta.
  destruct (C7_quick_entry_failure [(JsString.ofAscii "food", Eating_Out)]
              (JsString.ofAscii "Samosa food")
              (TransactionForm.mkState
                 (TransactionForm.mkForm None None [] "2026-11-01")
                 None (JsString.ofAscii "Samosa food")))
    as (Hparse & Hform & _ & Herror & _).
  - left. vm_compute. intros tok [<- | [<- | []]]; reflexivity.
  - reflexivity.
  - split; [exact Hparse|]. split; [exact Hform | exact Herror].
Defined.

Lemma C4_savings_bounds_witness :
  exists result,
    PredictionEngine.predict {[Groceries := Q2Qc (1 # 5)]}
      {[Groceries := Q2Qc (inject_Z 150)]} = Some result.
Proof.
  destruct (C4_savings_bounds {[Groceries := Q2Qc (1 # 5)]}
              {[Groceries := Q2Qc (inject_Z 150)]}) as (result & Hr & _).
  - intros c r [_ <-]%lookup_singleton_Some. split; vm_compute; discriminate.
  - exists result. exact Hr.
Defined.

(** Two grocery purchases of 100 and 50 make the aggregate
    with 150 for Groceries. *)
Example scenario_aggregate :
  byCategory [Tx.mk Groceries 100 "a" "2026-11-01";
              Tx.mk Groceries 50 "b" "2026-11-01"] =
  {[Groceries := 150]}.
Proof.
  apply map_eq. intros c. rewrite byCategory_lookup.
  destruct c; vm_compute; reflexivity.
Qed.

(** The sums of the dashboard round as doubles do: 0.1, 0.2 and 0.4
    make 0.7000000000000001. *)
Example scenario_rounding :
  totalSpending [Sample.tea; Sample.bus; Sample.salt] = 0x1.6666666666667p-1 /\
  byCategory [Sample.tea; Sample.bus; Sample.salt] !! Groceries = Some 0.5 /\
  averageTransaction [Sample.rice; Sample.train] = 75.375.
Proof. repeat split; vm_compute; reflexivity. Qed.

(** A blank quick input, here a no-break space, is dropped by the form
    whatever the parser would answer. *)
Example scenario_blank_input parse_transaction :
  let st := TransactionForm.mkState
              (TransactionForm.mkForm None None [] "2026-11-01")
              None [160%N] in
  TransactionForm.parseTransactionText parse_transaction st = st.
Proof. reflexivity. Qed.
End Scenarios.

Section PredictionScenarios.
Local Open Scope Qc_scope.

(** With the rate 0.20 for Groceries the prediction for 150 is 30, or
    20 percent, and the totals are those of the single category. *)
Example scenario_prediction :
  match PredictionEngine.predict {[Groceries := Q2Qc (1 # 5)]}
          {[Groceries := Q2Qc (inject_Z 150)]} with
  | Some r =>
      match PredictionEngine.predictions r !! Groceries with
      | Some p =>
          PredictionEngine.actual_expense p = Q2Qc (inject_Z 150) /\
          PredictionEngine.potential_savings p = Q2Qc (inject_Z 30) /\
          PredictionEngine.savings_percentage p = Q2Qc (inject_Z 20)
      | None => False
      end /\
      PredictionEngine.total_actual_expenses (PredictionEngine.totals r) =
        Q2Qc (inject_Z 150) /\
      PredictionEngine.total_potential_savings (PredictionEngine.totals r) =
        Q2Qc (inject_Z 30) /\
      PredictionEngine.total_savings_percentage (PredictionEngine.totals r) =
        Q2Qc (inject_Z 20)
  | None => False
  end.
Proof. vm_compute. repeat split; by apply Qc_is_canon. Qed.

(** No transactions: no predictions, and totals of zero. *)
Example scenario_empty_prediction :
  PredictionEngine.predict {[Groceries := Q2Qc (1 # 5)]} ∅ =
  Some (PredictionEngine.mkResult ∅ (PredictionEngine.mkTotals 0 0 0)).
Proof. vm_compute. reflexivity. Qed.

Example scenario_quick_entry :
  QuickEntryParser.parse [(JsString.ofAscii "food", Eating_Out)]
    (JsString.ofAscii "Samosa 30rs food") =
  QuickEntryParser.Ok
    (QuickEntryParser.mkParsed (JsString.ofAscii "Samosa") 30%float Eating_Out).
Proof. vm_compute. reflexivity. Qed.

(** Submitting a profile twice leaves one profile, the second one. *)
Example scenario_upsert p1 p2 store :
  UserProfile.user_id p1 = UserProfile.user_id p2 ->
  (ProfileStore.upsert p2 (ProfileStore.upsert p1 store).1).1 =
  (ProfileStore.upsert p2 store).1.
Proof. intros Hid. cbn. rewrite Hid. apply insert_insert_eq. Qed.
End PredictionScenarios.

(** * Part III: further properties of the components *)

(** ** The retry loop for any number of attempts *)

Section RetryLoopFacts.
Context {Response Error : Type}.
Variable axios_get : nat -> Settled Response Error.

Lemma attempts_app (l1 l2 : list Event) :
  attempts (l1 ++ l2) = (attempts l1 + attempts l2)%nat.
Proof. unfold attempts. by rewrite List.filter_app, List.length_app. Qed.

Lemma attempts_failedRounds from count :
  attempts (failedRounds from count) = count.
Proof.
  revert from. induction count as [|count IH]; intros from; [done|].
  rewrite failedRounds_S. cbn. f_equal. apply IH.
Qed.

Lemma totalWait_app (l1 l2 : list Event) :
  totalWait (l1 ++ l2) = totalWait l1 + totalWait l2.
Proof.
  unfold totalWait. induction l1 as [|[j|d] l1 IH]; simpl; [done | done | lia].
Qed.

Lemma totalWait_failedRounds from count :
  2 * totalWait (failedRounds from count) =
  1000 * Z.of_nat count * (2 * Z.of_nat from + Z.of_nat count + 1).
Proof.
  revert from. induction count as [|count IH]; intros from; [cbn; lia|].
  rewrite failedRounds_S. cbn [totalWait fold_right].
  fold (totalWait (failedRounds (S from) count)).
  specialize (IH (S from)). nia.
Qed.

(** The loop, started before the limit, ends with the first request that
    succeeds, or with the last one allowed. *)
Lemma retryLoop_outcome d : forall fuel maxRetries retries,
  (maxRetries - retries = S d)%nat -> (d < fuel)%nat ->
  exists k log c,
    retryLoop axios_get fuel maxRetries retries = Some (log, c) /\
    (retries + k < maxRetries)%nat /\
    log = failedRounds retries k ++ [Get (retries + k)] /\
    (forall j, (j < k)%nat -> exists e, axios_get (retries + j) = Rejected e) /\
    ((exists r, axios_get (retries + k) = Resolved r /\ c = Return r) \/
     (exists e, axios_get (retries + k) = Rejected e /\
                S (retries + k) = maxRetries /\ c = Throw e)).
Proof.
  induction d as [|d IH]; intros fuel maxRetries retries Hd Hfuel.
  - exists 0%nat. destruct (axios_get retries) as [r|e] eqn:Hg.
    + exists [Get retries], (Return r).
      rewrite (retryLoop_success axios_get 0 fuel maxRetries retries r);
        rewrite ?Nat.add_0_r; try done; try lia.
      repeat split; [lia | intros j Hj; lia | left; eauto].
    + exists [Get retries], (Throw e).
      rewrite (retryLoop_failure axios_get 0 fuel maxRetries retries e);
        rewrite ?Nat.add_0_r; try done; try lia.
      repeat split; [lia | intros j Hj; lia | right; exists e; repeat split; [done | lia]].
  - destruct (axios_get retries) as [r|e] eqn:Hg.
    + exists 0%nat, [Get retries], (Return r).
      rewrite (retryLoop_success axios_get 0 fuel maxRetries retries r);
        rewrite ?Nat.add_0_r; try done; try lia.
      repeat split; [lia | intros j Hj; lia | left; eauto].
    + destruct fuel as [|fuel]; [lia|].
      destruct (IH fuel maxRetries (S retries)) as (k & log & c & Hrun & Hk & Hlog & Hfail & Hc);
        [lia | lia |].
      exists (S k), (Get retries :: SetTimeout (1000 * Z.of_nat (S retries)) :: log), c.
      replace (retries + S k)%nat with (S retries + k)%nat by lia.
      split; [|split; [lia|split; [|split; [|exact Hc]]]].
      * cbn [retryLoop]. rewrite (proj2 (Nat.ltb_lt _ _)) by lia.
        rewrite Hg. rewrite (proj2 (Nat.eqb_neq _ _)) by lia.
        by rewrite Hrun.
      * rewrite failedRounds_S, Hlog. reflexivity.
      * intros [|j] Hj.
        -- exists e. by rewrite Nat.add_0_r.
        -- destruct (Hfail j) as [e' He']; [lia|]. exists e'.
           by replace (retries + S j)%nat with (S retries + j)%nat by lia.
Qed.

(** The loop from its start: the helper behind the statements below. *)
Lemma fetchWithRetryN_run maxRetries :
  (1 <= maxRetries)%nat ->
  exists k log c,
    fetchWithRetryN axios_get maxRetries = Some (log, c) /\
    (k < maxRetries)%nat /\
    log = failedRounds 0 k ++ [Get k] /\
    (forall j, (j < k)%nat -> exists e, axios_get j = Rejected e) /\
    ((exists r, axios_get k = Resolved r /\ c = Return r) \/
     (exists e, axios_get k = Rejected e /\ S k = maxRetries /\ c = Throw e)).
Proof.
  intros Hn. unfold fetchWithRetryN.
  destruct (retryLoop_outcome (maxRetries - 1) (S maxRetries) maxRetries 0)
    as (k & log & c & Hrun & Hk & Hlog & Hfail & Hc); [lia | lia |].
  exists k, log, c. cbn [Nat.add] in *. done.
Qed.

(** X1. With at least one attempt allowed, [fetchWithRetry(url,
    maxRetries)] ends after the first request that succeeds with its
    response, or after [maxRetries] failed requests with the error of the
    last one; the requests before the last all failed, and the wait after
    the n-th failure is n seconds. *)
Theorem fetchWithRetryN_outcome maxRetries :
  (1 <= maxRetries)%nat ->
  exists k log c,
    fetchWithRetryN axios_get maxRetries = Some (log, c) /\
    (k < maxRetries)%nat /\
    log = failedRounds 0 k ++ [Get k] /\
    (forall j, (j < k)%nat -> exists e, axios_get j = Rejected e) /\
    ((exists r, axios_get k = Resolved r /\ c = Return r) \/
     (exists e, axios_get k = Rejected e /\ S k = maxRetries /\ c = Throw e)).
Proof. apply fetchWithRetryN_run. Qed.

Lemma fetchWithRetryN_bounds maxRetries :
  match fetchWithRetryN axios_get maxRetries with
  | Some (log, c) =>
      (attempts log <= maxRetries)%nat /\
      0 <= totalWait log <= 500 * Z.of_nat maxRetries * (Z.of_nat maxRetries - 1) /\
      (forall e, c = Throw e ->
         attempts log = maxRetries /\
         totalWait log = 500 * Z.of_nat maxRetries * (Z.of_nat maxRetries - 1))
  | None => False
  end.
Proof.
  destruct maxRetries as [|n]; [cbn; repeat split; try lia; discriminate|].
  destruct (fetchWithRetryN_run (S n)) as (k & log & c & -> & Hk & -> & _ & Hc);
    [lia|].
  rewrite attempts_app, attempts_failedRounds, totalWait_app.
  pose proof (totalWait_failedRounds 0 k) as Hw.
  change (attempts [Get k]) with 1%nat. change (totalWait [Get k]) with 0.
  split; [lia|]. split; [nia|].
  intros err ->. destruct Hc as [(r & _ & [=]) | (e' & _ & Hlast & _)].
  split; [lia | nia].
Qed.

(** X2. Whatever the network does, [fetchWithRetry(url, maxRetries)]
    makes at most [maxRetries] requests and waits at most
    500 * maxRetries * (maxRetries - 1) ms in total; when it throws, it
    has made all the requests and waited all that time. *)
Theorem fetchWithRetryN_cost maxRetries :
  match fetchWithRetryN axios_get maxRetries with
  | Some (log, c) =>
      (attempts log <= maxRetries)%nat /\
      0 <= totalWait log <= 500 * Z.of_nat maxRetries * (Z.of_nat maxRetries - 1) /\
      (forall e, c = Throw e ->
         attempts log = maxRetries /\
         totalWait log = 500 * Z.of_nat maxRetries * (Z.of_nat maxRetries - 1))
  | None => False
  end.
Proof. apply fetchWithRetryN_bounds. Qed.


(** With the default of three attempts a result is never missing. *)
Lemma awaitFetch_total :
  is_Some (awaitFetch (fetchWithRetry axios_get)).
Proof.
  destruct (fetchWithRetryN_run 3) as (k & log & c & Hrun & _ & _ & _ & Hc);
    [lia|].
  unfold fetchWithRetry. rewrite Hrun.
  destruct Hc as [(r & _ & ->) | (e & _ & _ & ->)]; by eauto.
Qed.

(** The cost of one awaited fetch. *)
Lemma awaitFetch_cost log r :
  awaitFetch (fetchWithRetry axios_get) = Some (log, r) ->
  (1 <= attempts log <= 3)%nat /\ 0 <= totalWait log <= 3000.
Proof.
  unfold fetchWithRetry. intros Hrun.
  pose proof (fetchWithRetryN_bounds 3) as Hcost.
  destruct (fetchWithRetryN_run 3) as (k & log' & c & Hrun' & _ & Hlog & _ & _);
    [lia|].
  rewrite Hrun' in Hrun, Hcost. destruct Hcost as (Ha & Hw & _).
  assert (log' = log) as <- by (destruct c; cbn in Hrun; congruence).
  split; [|lia]. split; [|done].
  rewrite Hlog, attempts_app. cbn. lia.
Qed.

(** The three requests fail: the third error is thrown. *)
Lemma awaitFetch_rejected e0 e1 e2 :
  axios_get 0%nat = Rejected e0 -> axios_get 1%nat = Rejected e1 ->
  axios_get 2%nat = Rejected e2 ->
  awaitFetch (fetchWithRetry axios_get) =
  Some ([Get 0; SetTimeout 1000; Get 1; SetTimeout 2000; Get 2], inr e2).
Proof.
  intros H0 H1 H2. unfold fetchWithRetry, fetchWithRetryN. cbn.
  by rewrite H0, H1, H2.
Qed.

(** A thrown error means that the three requests failed. *)
Lemma awaitFetch_inr log e :
  awaitFetch (fetchWithRetry axios_get) = Some (log, inr e) ->
  exists e0 e1, axios_get 0%nat = Rejected e0 /\ axios_get 1%nat = Rejected e1 /\
                axios_get 2%nat = Rejected e.
Proof.
  unfold fetchWithRetry, fetchWithRetryN. cbn.
  destruct (axios_get 0) as [r0|e0]; [discriminate|].
  destruct (axios_get 1) as [r1|e1]; [discriminate|].
  destruct (axios_get 2) as [r2|e2]; [discriminate|].
  cbn. intros [= <- <-]. eauto.
Qed.
End RetryLoopFacts.


(** ** More on the aggregation *)

Section AggregationMore.
Local Open Scope float_scope.
Implicit Types (T : list Tx.t) (t : Tx.t).

Lemma filter_Permutation_list {A} (f : A -> bool) (l l' : list A) :
  Permutation l l' -> Permutation (List.filter f l) (List.filter f l').
Proof.
  induction 1 as [|x l l' _ IH|x y l|l1 l2 l3 _ IH1 _ IH2]; cbn.
  - constructor.
  - destruct (f x); [by constructor | done].
  - destruct (f x), (f y); try reflexivity. constructor.
  - by etransitivity.
Qed.

Lemma byCategory_dom T :
  dom (byCategory T) = list_to_set (map Tx.category T).
Proof.
  apply set_eq. intros c.
  rewrite elem_of_dom, byCategory_is_Some, elem_of_list_to_set.
  by rewrite list_elem_of_In.
Qed.

(** When no addition of the reducer rounds, the total of a category is
    finite and has the value of what was there plus the amounts of the
    category. *)
Lemma fold_quanta T c : forall acc,
  groupingExact acc T = true ->
  (forall w, acc !! c = Some w -> isFinite w = true) ->
  forall v, fold_left addToCategory T acc !! c = Some v ->
    isFinite v = true /\
    quanta v =
    (quanta (default 0%float (acc !! c))
     + fold_right Z.add 0%Z (map quanta (map Tx.amount (inCategory c T))))%Z.
Proof.
  induction T as [|t T IH]; intros acc Hex Hfin v Hv.
  - cbn in Hv. rewrite Hv. cbn. split; [by apply Hfin | lia].
  - cbn [groupingExact] in Hex. apply andb_prop in Hex as [Ha Hrest].
    apply exactAdd_spec in Ha as [Hf Hq]. rewrite orZero_quanta in Hq.
    cbn [fold_left] in Hv.
    assert (Hacc : addToCategory acc t =
                   <[Tx.category t :=
                       orZero (default 0 (acc !! Tx.category t)) + Tx.amount t]> acc)
      by apply addToCategory_insert.
    unfold inCategory. cbn [List.filter]. case_bool_decide as Hc.
    + subst c. destruct (IH _ Hrest) with (v := v) as [IHf IHq]; [|done|].
      * intros w. rewrite Hacc, lookup_insert_eq. by intros [= <-].
      * split; [done|]. rewrite IHq, Hacc, lookup_insert_eq.
        cbn [default from_option id map fold_right].
        fold (inCategory (Tx.category t) T). rewrite Hq. lia.
    + destruct (IH _ Hrest) with (v := v) as [IHf IHq]; [|done|].
      * intros w. rewrite Hacc, lookup_insert_ne by done. apply Hfin.
      * split; [done|]. rewrite IHq, Hacc, lookup_insert_ne by done. done.
Qed.

(** X4. The order in which the transactions arrive does not change the
    categories of the mapping; and when the additions round in neither
    order, it does not change the totals either. *)
Theorem grouping_order T T' :
  Permutation T T' ->
  dom (byCategory T) = dom (byCategory T') /\
  (groupingExact ∅ T = true -> groupingExact ∅ T' = true ->
   forall c v v',
     byCategory T !! c = Some v -> byCategory T' !! c = Some v' ->
     (v =? v') = true).
Proof.
  intros HP. split.
  - rewrite !byCategory_dom. apply set_eq. intros c.
    rewrite !elem_of_list_to_set. by rewrite (Permutation_map Tx.category HP).
  - intros Hex Hex' c v v' Hv Hv'.
    destruct (fold_quanta T c ∅ Hex) with (v := v) as [Hf Hq];
      [by intros w; rewrite lookup_empty | done |].
    destruct (fold_quanta T' c ∅ Hex') with (v := v') as [Hf' Hq'];
      [by intros w; rewrite lookup_empty | done |].
    apply quanta_eqb; [done | done |]. rewrite Hq, Hq'. f_equal.
    apply zsum_Permutation. do 2 apply Permutation_map.
    by apply filter_Permutation_list.
Qed.

(** X5. Grouping a second batch of transactions after a first one goes
    on from the totals of the first: a category without a transaction in
    the second batch keeps its total, the others get the running total of
    their transactions of the second batch, started at the total of the
    first. *)
Theorem byCategory_app T1 T2 c :
  byCategory (T1 ++ T2) !! c =
  match inCategory c T2 with
  | [] => byCategory T1 !! c
  | _ :: _ =>
      Some (runningTotal (default 0 (byCategory T1 !! c)) (inCategory c T2))
  end.
Proof. unfold byCategory. rewrite fold_left_app. apply fold_lookup. Qed.



(** X7. With a steady offset, and while the years have four digits, the
    window has seven distinct dates, the last of them the date of today
    and the first the date of the sixth day before. *)
Theorem window_steady tz today :
  steadyOffset tz today ->
  (JsDate.firstDay <= JsDate.dayOf today - 6)%Z ->
  (JsDate.dayOf today <= JsDate.lastDay)%Z ->
  List.NoDup (last7Days tz today) /\
  List.last (last7Days tz today) EmptyString = JsDate.toISODate today /\
  List.hd EmptyString (last7Days tz today) =
    JsDate.dateOfDay (JsDate.dayOf today - 6)%Z.
Proof.
  intros Hs Hlo Hhi. split; [by apply last7Days_NoDup|].
  rewrite last7Days_days by done. cbn [seq map List.last List.hd].
  split; unfold JsDate.toISODate; f_equal; lia.
Qed.
End AggregationMore.


(** ** Loading the dashboard *)

Lemma untag url (log : list Event) : map snd (tagged url log) = log.
Proof. unfold tagged. rewrite List.map_map. apply List.map_id. Qed.

Lemma tagged_url url url' ev (log : list Event) :
  In (url', ev) (tagged url log) -> url' = url.
Proof.
  unfold tagged. rewrite List.in_map_iff. by intros (e & [= <- _] & _).
Qed.

Section FetchDataFacts.
Import DashboardData.
Variable tz : JsDate.TimeZone.
Variable today : Z.
Variable get_transactions :
  nat -> Settled (Axios.Response (list Tx.t)) Axios.Error.
Variable get_trends :
  nat -> Settled (Axios.Response TrendsData) Axios.Error.

Lemma withHint_nonempty message : withHint message <> EmptyString.
Proof.
  unfold withHint, orElse. destruct message; cbn; discriminate.
Qed.

(** X8. [fetchData] always comes to an end with [loading] reset, after
    at most six requests and six seconds of waiting.  The trends are
    requested only once the transactions have arrived.  An error is shown
    exactly when the three requests for the transactions failed, and then
    the transactions and the summary are left as they were. *)
Theorem fetchData_ends st :
  match fetchData tz today get_transactions get_trends st with
  | Some (st', log) =>
      loading st' = false /\
      view st' <> LoadingView /\
      (attempts (map snd log) <= 6)%nat /\
      0 <= totalWait (map snd log) <= 6000 /\
      (forall ev, In (SpendingTrendsUrl, ev) log ->
         exists l r, awaitFetch (fetchWithRetry get_transactions) = Some (l, inl r) /\
                     transactions st' = Axios.data r) /\
      ((exists message, view st' = ErrorView message) <->
       (exists e0 e1 e2, get_transactions 0%nat = Rejected e0 /\
                         get_transactions 1%nat = Rejected e1 /\
                         get_transactions 2%nat = Rejected e2)) /\
      (is_Some (error st') ->
       transactions st' = transactions st /\ summaryData st' = summaryData st)
  | None => False
  end.
Proof.
  unfold fetchData.
  destruct (awaitFetch_total get_transactions) as [[log1 r1] H1]. rewrite H1. cbn -[awaitFetch fetchWithRetry].
  destruct (awaitFetch_cost _ _ _ H1) as [Ha1 Hw1].
  destruct r1 as [response|txError].
  - destruct (awaitFetch_total get_trends) as [[log2 r2] H2]. rewrite H2. cbn -[awaitFetch fetchWithRetry].
    destruct (awaitFetch_cost _ _ _ H2) as [Ha2 Hw2].
    assert (Hcost : (attempts (map snd (tagged TransactionsUrl log1 ++
                                         tagged SpendingTrendsUrl log2)) <= 6)%nat /\
                    0 <= totalWait (map snd (tagged TransactionsUrl log1 ++
                                             tagged SpendingTrendsUrl log2)) <= 6000).
    { rewrite List.map_app, !untag, attempts_app, totalWait_app. lia. }
    assert (Hnoerr : ~ exists e0 e1 e2,
              get_transactions 0%nat = Rejected e0 /\
              get_transactions 1%nat = Rejected e1 /\
              get_transactions 2%nat = Rejected e2).
    { intros (e0 & e1 & e2 & H0 & H1' & H2').
      rewrite (awaitFetch_rejected _ _ _ _ H0 H1' H2') in H1. discriminate. }
    destruct r2 as [trendResponse|trendError]; cbn.
    all: split; [done|]; split; [done|]; split; [apply Hcost|];
      split; [apply Hcost|]; split; [by eauto|]; split;
      [split; [by intros [m ?] | by intros ?] | by intros [? ?]].
  - cbn. rewrite untag.
    destruct (awaitFetch_inr _ _ _ H1) as (e0 & e1 & H0 & H1' & H2').
    split; [done|]. split.
    { unfold view. cbn. by destruct (withHint _). }
    split; [lia|]. split; [lia|]. split.
    { intros ev Hin. apply tagged_url in Hin. discriminate. }
    split; [|done]. split; [by eauto 6|]. intros _.
    unfold view. cbn. pose proof (withHint_nonempty (loadFailedMessage txError)).
    destruct (withHint _); [done | by eauto].
Qed.

(** X9. When the transactions arrive and the trends cannot be loaded,
    no error is shown: the dashboard falls back to the trend computed
    from the transactions, for a list that is not empty, and groups the
    transactions by category. *)
Theorem fetchData_trend_fallback st log1 response log2 trendError :
  awaitFetch (fetchWithRetry get_transactions) = Some (log1, inl response) ->
  awaitFetch (fetchWithRetry get_trends) = Some (log2, inr trendError) ->
  Axios.data response <> [] ->
  exists st' log,
    fetchData tz today get_transactions get_trends st = Some (st', log) /\
    view st' = DashboardView /\
    transactions st' = Axios.data response /\
    summary_byCategory (summaryData st') = byCategory (Axios.data response) /\
    computedTrend tz today (Axios.data response)
      (summary_recentTrends (summaryData st')).
Proof.
  intros H1 H2 Hne. unfold fetchData. rewrite H1. cbn -[awaitFetch fetchWithRetry]. rewrite H2. cbn -[awaitFetch fetchWithRetry].
  eexists _, _. split; [reflexivity|]. cbn.
  destruct (Axios.data response) as [|t T] eqn:E; [done|].
  split; [done|]. split; [done|]. split; [done|].
  apply recentTrends_computedTrend.
Qed.

(** X10. Without transactions the summary is left as it was, also when
    the trends have arrived: from the first state on, the dashboard shows
    no category and an empty trend, whatever [daily_spending] holds. *)
Theorem fetchData_no_transactions log1 response :
  awaitFetch (fetchWithRetry get_transactions) = Some (log1, inl response) ->
  Axios.data response = [] ->
  exists st' log,
    fetchData tz today get_transactions get_trends initialState = Some (st', log) /\
    view st' = DashboardView /\
    summaryData st' = initialSummary /\
    categoriesCard st' = 0%nat /\
    summary_recentTrends (summaryData st') = [].
Proof.
  intros H1 Hempty. unfold fetchData. rewrite H1. cbn -[awaitFetch fetchWithRetry].
  destruct (awaitFetch_total get_trends) as [[log2 r2] H2]. rewrite H2. cbn -[awaitFetch fetchWithRetry].
  rewrite Hempty. destruct r2; eexists _, _; (split; [reflexivity|]); by cbn.
Qed.
End FetchDataFacts.

(** ** Loading the predictions *)

Section FetchPredictionsFacts.
Import SavingsPrediction.
Context {ProfileData PredictionData : Type}.
Variable get_profile : nat -> Settled (Axios.Response ProfileData) Axios.Error.
Variable get_transactions :
  nat -> Settled (Axios.Response (list Tx.t)) Axios.Error.
Variable get_predict :
  nat -> Settled (Axios.Response PredictionData) Axios.Error.

(** X11. [fetchPredictions] always comes to an end, after at most nine
    requests, and the component then never shows the loading view, also on
    the path that leaves [loading] set.  When it shows the predictions,
    they are those of the response to the request just made. *)
Theorem fetchPredictions_ends (st : State PredictionData) :
  match fetchPredictions get_profile get_transactions get_predict st with
  | Some (st', log) =>
      view st' <> LoadingView /\
      (attempts (map snd log) <= 9)%nat /\
      (forall p, view st' = PredictionView p ->
         exists l r, awaitFetch (fetchWithRetry get_predict) = Some (l, inl r) /\
                     p = Some (Axios.data r))
  | None => False
  end.
Proof.
  unfold fetchPredictions.
  destruct (awaitFetch_total get_profile) as [[log1 r1] H1]. rewrite H1. cbn -[awaitFetch fetchWithRetry].
  destruct (awaitFetch_cost _ _ _ H1) as [Ha1 _].
  destruct r1 as [resp1|err1].
  - destruct (awaitFetch_total get_transactions) as [[log2 r2] H2]. rewrite H2. cbn -[awaitFetch fetchWithRetry].
    destruct (awaitFetch_cost _ _ _ H2) as [Ha2 _].
    destruct r2 as [resp2|err2].
    + destruct (hasData (Axios.data resp2)).
      * destruct (awaitFetch_total get_predict) as [[log3 r3] H3]. rewrite H3. cbn -[awaitFetch fetchWithRetry].
        destruct (awaitFetch_cost _ _ _ H3) as [Ha3 _].
        assert (Hn : (attempts (map snd ((tagged ProfileUrl log1 ++
                        tagged TransactionsUrl log2) ++ tagged PredictUrl log3)) <= 9)%nat).
        { rewrite !List.map_app, !untag, !attempts_app. lia. }
        destruct r3 as [resp3|err3]; cbn.
        -- split; [done|]. split; [done|]. intros p [= <-]. by eauto.
        -- split; [done|]. split; [done|]. intros p. discriminate.
      * cbn. split; [done|]. split; [|intros p; discriminate].
        rewrite !List.map_app, !untag, !attempts_app. lia.
    + cbn. split; [done|]. split; [|intros p; discriminate].
      rewrite !List.map_app, !untag, !attempts_app. lia.
  - destruct (is404 err1); cbn.
    + split; [done|]. rewrite untag. split; [lia | intros p; discriminate].
    + rewrite untag. unfold view. cbn.
      destruct (hasProfile st), (hasTransactions st); cbn;
        (split; [done|]); (split; [lia|]); intros p; discriminate.
Qed.

(** X12. The predictions are requested only when the profile has been
    found and the list of transactions has arrived and is not empty. *)
Theorem predict_requested_only_with_data (st : State PredictionData) st' log ev :
  fetchPredictions get_profile get_transactions get_predict st = Some (st', log) ->
  In (PredictUrl, ev) log ->
  (exists l r, awaitFetch (fetchWithRetry get_profile) = Some (l, inl r)) /\
  (exists l r, awaitFetch (fetchWithRetry get_transactions) = Some (l, inl r) /\
               Axios.data r <> []).
Proof.
  unfold fetchPredictions.
  destruct (awaitFetch (fetchWithRetry get_profile)) as [[log1 r1]|] eqn:H1;
    cbn -[awaitFetch fetchWithRetry]; [|done].
  destruct r1 as [resp1|err1].
  - destruct (awaitFetch (fetchWithRetry get_transactions)) as [[log2 r2]|] eqn:H2;
      cbn -[awaitFetch fetchWithRetry]; [|done].
    destruct r2 as [resp2|err2].
    + destruct (Axios.data resp2) as [|t T] eqn:E; cbn -[awaitFetch fetchWithRetry].
      * intros [= <- <-] [Hin|Hin]%List.in_app_or; apply tagged_url in Hin; discriminate.
      * intros _ _. split; [by eauto|]. eexists _, _. split; [reflexivity|].
        by rewrite E.
    + intros [= <- <-] [Hin|Hin]%List.in_app_or; apply tagged_url in Hin; discriminate.
  - destruct (is404 err1); intros [= <- <-] Hin; apply tagged_url in Hin; discriminate.
Qed.

(** X13. A missing profile is found out only after the three attempts:
    when they fail and the last one with status 404, the component has
    made three requests for the profile and no other, has waited three
    seconds, and shows the missing-profile view without an error. *)
Theorem missing_profile (st : State PredictionData) e0 e1 e2 :
  get_profile 0%nat = Rejected e0 -> get_profile 1%nat = Rejected e1 ->
  get_profile 2%nat = Rejected e2 ->
  Axios.response_status e2 = Some 404%nat ->
  exists st',
    fetchPredictions get_profile get_transactions get_predict st =
      Some (st', tagged ProfileUrl
                   [Get 0; SetTimeout 1000; Get 1; SetTimeout 2000; Get 2]) /\
    view st' = ProfileMissingView /\
    error st' = None /\
    predictions st' = predictions st.
Proof.
  intros H0 H1 H2 H404. unfold fetchPredictions.
  rewrite (awaitFetch_rejected _ _ _ _ H0 H1 H2). cbn.
  unfold is404. rewrite H404. cbn. eexists. by repeat split.
Qed.
End FetchPredictionsFacts.


(** ** The profile form *)

Section ProfileFormFacts.
Import UserProfile ProfileForm.

Lemma validate_None fd :
  validate fd = None <->
  (exists a, age fd = Some a /\ 18 <= a <= 100) /\
  occupation fd <> EmptyString /\
  (forall d, dependents fd = Some d -> 0 <= d).
Proof.
  unfold validate, falsyNum, falsyString, toNumber.
  destruct (age fd) as [a|]; cbn.
  2: { split; [discriminate|]. by intros ((a & [=] & _) & _). }
  destruct (Z.eqb_spec a 0); cbn.
  { split; [discriminate|]. intros ((a' & [= <-] & Ha) & _). lia. }
  destruct (occupation fd) as [|c o]; cbn.
  { split; [discriminate|]. by intros (_ & Ho & _). }
  destruct (Z.ltb_spec a 18); cbn.
  { split; [discriminate|]. intros ((a' & [= <-] & Ha) & _). lia. }
  destruct (Z.gtb_spec a 100); cbn.
  { split; [discriminate|]. intros ((a' & [= <-] & Ha) & _). lia. }
  destruct (dependents fd) as [d|]; cbn.
  - destruct (Z.ltb_spec d 0).
    + split; [discriminate|]. intros (_ & _ & Hd). specialize (Hd d eq_refl). lia.
    + split; [|done]. intros _. split; [exists a; split; [done | lia]|].
      split; [done|]. by intros d' [= <-].
  - split; [|done]. intros _. split; [exists a; split; [done | lia]|].
    split; [done|]. by intros d' [=].
Qed.

(** What [handleSubmit] sends to a backend that records the requests. *)
Lemma handleSubmit_sent userId st :
  (handleSubmit recordPost userId st []).2 =
  match validate (formData st) with
  | Some _ => []
  | None =>
      [mkPayload userId (age (formData st)) (dependents (formData st))
         (occupation (formData st))]
  end.
Proof. unfold handleSubmit. by destruct (validate (formData st)). Qed.

(** X14. [handleSubmit] sends the profile exactly when the age is
    between 18 and 100, an occupation is chosen and the number of
    dependents is not negative (it may be blank); the request then
    carries the user id and the three fields as they are in the form. *)
Theorem profile_sent_iff userId st :
  let fd := formData st in
  ((exists a, age fd = Some a /\ 18 <= a <= 100) /\
   occupation fd <> EmptyString /\
   (forall d, dependents fd = Some d -> 0 <= d) ->
   (handleSubmit recordPost userId st []).2 =
     [mkPayload userId (age fd) (dependents fd) (occupation fd)]) /\
  (~ ((exists a, age fd = Some a /\ 18 <= a <= 100) /\
      occupation fd <> EmptyString /\
      (forall d, dependents fd = Some d -> 0 <= d)) ->
   (handleSubmit recordPost userId st []).2 = []).
Proof.
  cbv zeta. rewrite handleSubmit_sent. split.
  - intros Hv%validate_None. by rewrite Hv.
  - intros Hn. destruct (validate (formData st)) as [msg|] eqn:Hv; [done|].
    by apply validate_None in Hv.
Qed.

(** X15. Loading a stored profile and saving it unchanged sends back
    the values that were loaded, when they are valid. *)
Theorem load_then_save userId st response a d :
  data_age (Axios.data response) = Some a -> 18 <= a <= 100 ->
  data_dependents (Axios.data response) = Some d -> 0 <= d ->
  data_occupation (Axios.data response) <> EmptyString ->
  (handleSubmit recordPost userId
     (fetchUserProfile (Resolved response) st).1 []).2 =
  [mkPayload userId (Some a) (Some d) (data_occupation (Axios.data response))].
Proof.
  intros Ha Hr Hd Hd0 Ho. rewrite handleSubmit_sent. cbn [fetchUserProfile fst formData].
  rewrite (proj2 (validate_None _)); cbn; rewrite Ha, Hd; [done|].
  split; [by eauto|]. split; [done|]. by intros d' [= <-].
Qed.
End ProfileFormFacts.


(** ** The transaction form *)

Section TransactionSubmitFacts.
Import TransactionSubmit.

Lemma incomplete_false fd :
  incomplete fd = false <->
  (exists c, TransactionForm.category fd = Some c) /\
  (exists a, TransactionForm.amount fd = Some a /\ falsyNumber a = false) /\
  TransactionForm.description fd <> [].
Proof.
  unfold incomplete, falsyAmount, JsString.falsy.
  destruct (TransactionForm.category fd) as [c|]; cbn.
  2: { split; [discriminate|]. by intros ((c & [=]) & _). }
  destruct (TransactionForm.amount fd) as [a|]; cbn.
  2: { split; [discriminate|]. by intros (_ & (a & [=] & _) & _). }
  destruct (falsyNumber a) eqn:Ha; cbn.
  { split; [discriminate|]. intros (_ & (a' & [= <-] & Hne) & _). congruence. }
  destruct (TransactionForm.description fd); cbn.
  { split; [discriminate|]. by intros (_ & _ & Hd). }
  split; [|done]. intros _. by eauto 6.
Qed.

(** What [handleSubmit] does with a backend that records the requests. *)
Lemma handleSubmit_recorded now userId st :
  let fd := TransactionForm.formData (form st) in
  handleSubmit recordPost now userId st [] =
  if incomplete fd then
    (mkState
       (TransactionForm.mkState fd
          (Some "Please fill in all required fields"%string)
          (TransactionForm.quickInput (form st)))
       false (success st),
     [])
  else
    (mkState (TransactionForm.mkState (blankForm now) None []) false true,
     [mkPayload userId (TransactionForm.category fd) (TransactionForm.amount fd)
        (TransactionForm.description fd) (TransactionForm.date fd)]).
Proof. cbv zeta. unfold handleSubmit. by destruct (incomplete _). Qed.

(** X16. [handleSubmit] sends the transaction exactly when a category is
    chosen, the amount is a number other than 0 and NaN (a negative one
    passes) and the description is not empty; the request carries the
    fields as they are, the date unchecked.  Otherwise nothing is sent,
    the form is kept and the error about the required fields is set. *)
Theorem transaction_sent_iff now userId st :
  let fd := TransactionForm.formData (form st) in
  let complete :=
    (exists c, TransactionForm.category fd = Some c) /\
    (exists a, TransactionForm.amount fd = Some a /\ falsyNumber a = false) /\
    TransactionForm.description fd <> [] in
  (complete ->
   handleSubmit recordPost now userId st [] =
     (mkState (TransactionForm.mkState (blankForm now) None []) false true,
      [mkPayload userId (TransactionForm.category fd) (TransactionForm.amount fd)
         (TransactionForm.description fd) (TransactionForm.date fd)])) /\
  (~ complete ->
   handleSubmit recordPost now userId st [] =
     (mkState
        (TransactionForm.mkState fd
           (Some "Please fill in all required fields"%string)
           (TransactionForm.quickInput (form st)))
        false (success st),
      [])).
Proof.
  cbv zeta. rewrite handleSubmit_recorded. cbv zeta. split.
  - intros Hc%incomplete_false. by rewrite Hc.
  - intros Hn. destruct (incomplete _) eqn:Hi; [done|].
    by apply incomplete_false in Hi.
Qed.

(** X17. Whatever the backend answers, [handleSubmit] clears the form
    and the quick input only when the request was accepted; in every
    other case the input is kept, [success] is not set, and an error
    message that is not empty is shown. *)
Theorem transaction_submit_outcome {Store : Type}
    (axios_post : Payload -> Store -> Store * option string)
    now userId st store :
  let '(st', store') := handleSubmit axios_post now userId st store in
  loading st' = false /\
  ((form st' = TransactionForm.mkState (blankForm now) None [] /\
    success st' = true /\
    exists payload, axios_post payload store = (store', None)) \/
   (TransactionForm.formData (form st') = TransactionForm.formData (form st) /\
    TransactionForm.quickInput (form st') = TransactionForm.quickInput (form st) /\
    success st' = success st /\
    exists message, TransactionForm.error (form st') = Some message /\
                    message <> EmptyString)).
Proof.
  unfold handleSubmit. destruct (incomplete _).
  - cbn. split; [done|]. right. repeat split. by eexists.
  - destruct (axios_post _ store) as [store' [message|]] eqn:Hpost; cbn.
    + split; [done|]. right. repeat split. eexists. split; [done|].
      by destruct message.
    + split; [done|]. left. repeat split. by eauto.
Qed.

(** X18. A quick entry that the service parses fills the form so that
    the submission sends the parsed description, amount and category with
    the date the form had, when the amount is a number other than 0 and
    the description is not empty. *)
Theorem quick_entry_then_submit parse_transaction now userId st data :
  JsString.falsy (JsString.trim (TransactionForm.quickInput (form st))) = false ->
  parse_transaction (TransactionForm.quickInput (form st)) =
    QuickEntryParser.Ok data ->
  falsyNumber (QuickEntryParser.amount data) = false ->
  QuickEntryParser.description data <> [] ->
  (handleSubmit recordPost now userId (quickEntry parse_transaction st) []).2 =
  [mkPayload userId (Some (QuickEntryParser.category data))
     (Some (QuickEntryParser.amount data)) (QuickEntryParser.description data)
     (TransactionForm.date (TransactionForm.formData (form st)))].
Proof.
  intros Hb Hp Ha Hd. rewrite handleSubmit_recorded. cbv zeta.
  assert (Hfd : TransactionForm.formData (form (quickEntry parse_transaction st)) =
                TransactionForm.mkForm (Some (QuickEntryParser.category data))
                  (Some (QuickEntryParser.amount data))
                  (QuickEntryParser.description data)
                  (TransactionForm.date (TransactionForm.formData (form st)))).
  { cbn. unfold TransactionForm.parseTransactionText. by rewrite Hb, Hp. }
  rewrite Hfd. rewrite (proj2 (incomplete_false _)); [done|]. cbn.
  split; [by eauto|]. split; [by eauto | done].
Qed.
End TransactionSubmitFacts.

(** ** The default date of a transaction and the window of the trend *)

Section DefaultDateFacts.
Import JsDate.

Lemma dateOfDay_isoDatePart day :
  firstDay <= day <= lastDay -> dateOfDay day = isoDatePart day.
Proof.
  intros Hr. unfold dateOfDay, isoDatePart.
  pose proof (civil_year_range day Hr) as Hy.
  destruct (civil_from_days day) as [[y m] d].
  rewrite yearString_four by done. reflexivity.
Qed.

(** X19. With a steady offset, and while the years have four digits, the
    date a new transaction gets by default is one of the dates of the
    window exactly on the day it was entered and the six days after it:
    the transaction is in the trend for seven days, and in no trend
    before or after. *)
Theorem default_date_in_window tz now today :
  steadyOffset tz today ->
  firstDay <= dayOf now <= lastDay ->
  firstDay <= dayOf today - 6 -> dayOf today <= lastDay ->
  (In (TransactionSubmit.defaultDate now) (last7Days tz today) <->
   0 <= dayOf today - dayOf now <= 6) /\
  (dayOf today = dayOf now ->
   List.last (last7Days tz today) EmptyString = TransactionSubmit.defaultDate now).
Proof.
  intros Hs Hnow Hlo Hhi. unfold TransactionSubmit.defaultDate.
  rewrite <- dateOfDay_isoDatePart by done. split; [split|].
  - intros (k & Hk & Heq)%In_last7Days; [|done].
    apply dateOfDay_inj in Heq; lia.
  - intros Hd. rewrite last7Days_days by done. apply List.in_map_iff.
    exists (Z.to_nat (6 - (dayOf today - dayOf now))). split.
    + f_equal. lia.
    + apply List.in_seq. lia.
  - intros Heq. rewrite last7Days_days by done. cbn [seq map List.last].
    f_equal. lia.
Qed.
End DefaultDateFacts.

(** ** The further properties at concrete inputs *)

Section MoreScenarios.
Import Sample.
Local Open Scope float_scope.

Lemma fetchWithRetryN_outcome_witness :
  exists k log c,
    fetchWithRetryN (flaky tt) 5 = Some (log, c) /\
    (k < 5)%nat /\
    log = failedRounds 0 k ++ [Get k] /\
    (forall j, (j < k)%nat -> exists e, flaky tt j = Rejected e) /\
    ((exists r, flaky tt k = Resolved r /\ c = Return r) \/
     (exists e, flaky tt k = Rejected e /\ S k = 5%nat /\ c = Throw e)).
Proof. apply (fetchWithRetryN_outcome (flaky tt) 5). lia. Defined.

Lemma grouping_order_witness :
  dom (byCategory [rice; train; milk]) = dom (byCategory [milk; train; rice]) /\
  (forall c v v',
     byCategory [rice; train; milk] !! c = Some v ->
     byCategory [milk; train; rice] !! c = Some v' ->
     (v =? v') = true).
Proof.
  destruct (grouping_order [rice; train; milk] [milk; train; rice]) as [Hd Hv].
  - apply (perm_trans (l' := [train; milk; rice])).
    + apply (Permutation_cons_append [train; milk] rice).
    + apply perm_swap.
  - split; [exact Hd|]. apply Hv; reflexivity.
Defined.

Lemma window_steady_witness :
  List.NoDup (last7Days JsDate.kolkata now) /\
  List.last (last7Days JsDate.kolkata now) EmptyString = JsDate.toISODate now /\
  List.hd EmptyString (last7Days JsDate.kolkata now) =
    JsDate.dateOfDay (JsDate.dayOf now - 6)%Z.
Proof.
  apply (window_steady JsDate.kolkata now).
  - exact (steadyOffset_constant 19800000 now).
  - vm_compute. discriminate.
  - vm_compute. discriminate.
Defined.

Lemma fetchData_trend_fallback_witness :
  exists st' log,
    DashboardData.fetchData JsDate.utc now (flaky [rice; train]) (failing 500)
      DashboardData.initialState = Some (st', log) /\
    DashboardData.view st' = DashboardData.DashboardView /\
    DashboardData.transactions st' = [rice; train] /\
    summary_byCategory (DashboardData.summaryData st') = byCategory [rice; train] /\
    computedTrend JsDate.utc now [rice; train]
      (summary_recentTrends (DashboardData.summaryData st')).
Proof.
  apply (fetchData_trend_fallback JsDate.utc now (flaky [rice; train])
           (failing 500) DashboardData.initialState
           [Get 0; SetTimeout 1000; Get 1; SetTimeout 2000; Get 2]
           (Axios.mkResponse 200 [rice; train])
           [Get 0; SetTimeout 1000; Get 1; SetTimeout 2000; Get 2]
           (Axios.mkError "Request failed" (Some 500%nat)));
    [reflexivity | reflexivity | discriminate].
Defined.

Lemma fetchData_no_transactions_witness :
  exists st' log,
    DashboardData.fetchData JsDate.utc now (flaky []) (flaky apiTrend)
      DashboardData.initialState = Some (st', log) /\
    DashboardData.view st' = DashboardData.DashboardView /\
    DashboardData.summaryData st' = initialSummary /\
    DashboardData.categoriesCard st' = 0%nat /\
    summary_recentTrends (DashboardData.summaryData st') = [].
Proof.
  apply (fetchData_no_transactions JsDate.utc now (flaky []) (flaky apiTrend)
           [Get 0; SetTimeout 1000; Get 1; SetTimeout 2000; Get 2]
           (Axios.mkResponse 200 [])); reflexivity.
Defined.

Lemma predict_requested_only_with_data_witness :
  (exists l r, awaitFetch (fetchWithRetry (flaky tt)) = Some (l, inl r)) /\
  (exists l r, awaitFetch (fetchWithRetry (flaky [rice])) = Some (l, inl r) /\
               Axios.data r <> []).
Proof.
  destruct (SavingsPrediction.fetchPredictions (flaky tt) (flaky [rice])
              (flaky 7%nat) SavingsPrediction.initialState) as [[st' log]|] eqn:Hrun;
    [|discriminate Hrun].
  apply (predict_requested_only_with_data (flaky tt) (flaky [rice]) (flaky 7%nat)
           SavingsPrediction.initialState st' log (Get 2) Hrun).
  injection Hrun as _ <-. vm_compute. tauto.
Defined.

Lemma missing_profile_witness :
  exists st',
    SavingsPrediction.fetchPredictions (failing (A := unit) 404) (flaky [rice])
      (flaky 7%nat) SavingsPrediction.initialState =
      Some (st', tagged ProfileUrl
                   [Get 0; SetTimeout 1000; Get 1; SetTimeout 2000; Get 2]) /\
    SavingsPrediction.view st' = SavingsPrediction.ProfileMissingView /\
    SavingsPrediction.error st' = None /\
    SavingsPrediction.predictions st' =
      SavingsPrediction.predictions SavingsPrediction.initialState.
Proof.
  apply (missing_profile (failing (A := unit) 404) (flaky [rice]) (flaky 7%nat)
           SavingsPrediction.initialState
           (Axios.mkError "Request failed" (Some 404%nat))
           (Axios.mkError "Request failed" (Some 404%nat))
           (Axios.mkError "Request failed" (Some 404%nat))); reflexivity.
Defined.

Lemma profile_sent_iff_witness :
  (UserProfile.handleSubmit ProfileForm.recordPost "user123"
     (student (Some 30%Z) (Some 2%Z)) []).2 =
  [UserProfile.mkPayload "user123" (Some 30%Z) (Some 2%Z) "Student"] /\
  (UserProfile.handleSubmit ProfileForm.recordPost "user123"
     (student (Some 15%Z) (Some 2%Z)) []).2 = [].
Proof.
  split.
  - apply (proj1 (profile_sent_iff "user123" (student (Some 30%Z) (Some 2%Z)))).
    split; [exists 30%Z; split; [reflexivity | lia]|].
    split; [discriminate|]. intros d [= <-]. lia.
  - apply (proj2 (profile_sent_iff "user123" (student (Some 15%Z) (Some 2%Z)))).
    intros ((a & [= <-] & Ha) & _). lia.
Defined.

Lemma load_then_save_witness :
  (UserProfile.handleSubmit ProfileForm.recordPost "user123"
     (ProfileForm.fetchUserProfile
        (Resolved (Axios.mkResponse 200
                     (ProfileForm.mkProfile (Some 30%Z) (Some 0%Z) "Retired")))
        ProfileForm.initialState).1 []).2 =
  [UserProfile.mkPayload "user123" (Some 30%Z) (Some 0%Z) "Retired"].
Proof.
  apply (load_then_save "user123" ProfileForm.initialState
           (Axios.mkResponse 200
              (ProfileForm.mkProfile (Some 30%Z) (Some 0%Z) "Retired"))
           30%Z 0%Z); [reflexivity | lia | reflexivity | lia | discriminate].
Defined.

Lemma transaction_sent_iff_witness :
  TransactionSubmit.handleSubmit TransactionSubmit.recordPost now
    "user123" refund [] =
  (TransactionSubmit.mkState
     (TransactionForm.mkState (TransactionSubmit.blankForm now) None [])
     false true,
   [TransactionSubmit.mkPayload "user123" (Some Groceries) (Some (-1))
      (JsString.ofAscii "Refund") "2026-11-01"]).
Proof.
  apply (proj1 (transaction_sent_iff now "user123" refund)).
  split; [by eexists|]. split; [|discriminate].
  eexists. split; reflexivity.
Defined.

Lemma quick_entry_then_submit_witness :
  (TransactionSubmit.handleSubmit TransactionSubmit.recordPost now "user123"
     (TransactionSubmit.quickEntry
        (QuickEntryParser.parse [(JsString.ofAscii "food", Eating_Out)])
        (TransactionSubmit.mkState
           (TransactionForm.mkState (TransactionSubmit.blankForm now) None
              (JsString.ofAscii "Samosa 30rs food"))
           false false)) []).2 =
  [TransactionSubmit.mkPayload "user123" (Some Eating_Out) (Some 30)
     (JsString.ofAscii "Samosa") "2026-11-01"].
Proof.
  apply (quick_entry_then_submit
           (QuickEntryParser.parse [(JsString.ofAscii "food", Eating_Out)])
           now "user123"
           (TransactionSubmit.mkState
              (TransactionForm.mkState (TransactionSubmit.blankForm now) None
                 (JsString.ofAscii "Samosa 30rs food"))
              false false)
           (QuickEntryParser.mkParsed (JsString.ofAscii "Samosa") 30 Eating_Out));
    [reflexivity | reflexivity | reflexivity | discriminate].
Defined.

Lemma default_date_in_window_witness :
  (In (TransactionSubmit.defaultDate now)
      (last7Days JsDate.kolkata (now + 3 * 86400000)) <->
   (0 <= JsDate.dayOf (now + 3 * 86400000) - JsDate.dayOf now <= 6)%Z) /\
  (JsDate.dayOf (now + 3 * 86400000) = JsDate.dayOf now ->
   List.last (last7Days JsDate.kolkata (now + 3 * 86400000)) EmptyString =
     TransactionSubmit.defaultDate now).
Proof.
  apply (default_date_in_window JsDate.kolkata now (now + 3 * 86400000)%Z).
  - exact (steadyOffset_constant 19800000 (now + 3 * 86400000)%Z).
  - split; vm_compute; discriminate.
  - vm_compute; discriminate.
  - vm_compute; discriminate.
Defined.
End MoreScenarios.

